(** * sarpy metadata records: a shallow embedding and its properties

    The development follows three source files of the repository:

    - [sarpy/io/complex/sicd_elements/ImageFormation.py]
    - [sarpy/io/complex/sidd_elements/sidd1_elements/ProductDisplay.py]
    - [sarpy/io/nitf/tres/unclass/CSCCGA.py]

    Python objects are records of optional fields ([None] is [None]), Python
    floats are IEEE binary64 values (the kernel's primitive floats), raised
    exceptions are the left summand of [result], and the calls of
    [logging.error] are collected in a list of diagnostics. *)

From Stdlib Require Import ZArith List Bool Lia.
From Stdlib Require Import Ascii String.
From Stdlib Require Import DecimalString.
From Stdlib Require DecimalPos.
From Stdlib Require Import Floats.
Import ListNotations.

Set Implicit Arguments.

Local Open Scope string_scope.
Local Open Scope Z_scope.
Local Open Scope list_scope.

(* ================================================================== *)
(** * Python run-time: exceptions and the exception monad             *)
(* ================================================================== *)

(** The exceptions the modelled code can raise.  [EnumViolation] and
    [TruncatedRecord] are the two error names of the specification that do not
    map to a built-in Python exception. *)
Inductive exception : Type :=
| AttributeError
| ValueError
| IndexError
| KeyError
| TypeError
| SyntaxError
| EnumViolation
| TruncatedRecord.

(** A computation that either raises or returns. *)
Definition result (A : Type) : Type := (exception + A)%type.

Definition raise {A : Type} (e : exception) : result A := inl e.
Definition ret {A : Type} (a : A) : result A := inr a.

Definition bind {A B : Type} (c : result A) (k : A -> result B) : result B :=
  match c with
  | inl e => inl e
  | inr a => k a
  end.

Declare Scope result_scope.
Delimit Scope result_scope with result.
Notation "x <- c ;; k" := (bind c (fun x => k))
  (at level 61, c at next level, right associativity) : result_scope.

Definition is_error {A : Type} (c : result A) : bool :=
  match c with inl _ => true | inr _ => false end.

(** [mapM] in the exception monad: a list comprehension whose body can raise;
    the elements are evaluated left to right and the first exception wins. *)
Fixpoint mapM {A B : Type} (f : A -> result B) (l : list A) : result (list B) :=
  match l with
  | [] => ret []
  | a :: l' =>
      match f a with
      | inl e => inl e
      | inr b =>
          match mapM f l' with
          | inl e => inl e
          | inr bs => inr (b :: bs)
          end
      end
  end.

(* ================================================================== *)
(** * Python floats                                                    *)
(* ================================================================== *)

(** A Python [float] is an IEEE-754 binary64 value; [+] and [<] are the
    primitive operations [PrimFloat.add] and [PrimFloat.ltb]. *)
Module PyFloat.

Definition t : Type := float.

Definition add (x y : t) : t := PrimFloat.add x y.
Definition ltb (x y : t) : bool := PrimFloat.ltb x y.
Definition leb (x y : t) : bool := PrimFloat.leb x y.

(** [x += y] on an optional attribute that is known to be present. *)
Definition iadd (x : t) (y : t) : t := add x y.

End PyFloat.

(* ================================================================== *)
(** * Diagnostics and the validation monad                             *)
(* ================================================================== *)

(** What a call of [logging.error] records.  The constructors are the
    diagnostic kinds of the specification. *)
Inductive Violation : Type :=
| MissingRequiredField (cls attribute : string)
| EnumViolationLogged (attribute value : string)
| CrossFieldViolation (predicate : string) (lower upper : PyFloat.t)
| MalformedExternalData (entry : string).

Definition is_cross_field (v : Violation) : bool :=
  match v with CrossFieldViolation _ _ _ => true | _ => false end.

(** A method that runs on an object [self : S]: it may read and write the
    attributes of [self], call [logging.error] and raise.  The object and the
    log are threaded through; an exception leaves both as they were when it
    was raised. *)
Definition Method (S A : Type) : Type :=
  S -> list Violation -> (result A * S * list Violation).

Module MethodM.

Definition pure {S A : Type} (a : A) : Method S A :=
  fun self log => (inr a, self, log).

Definition throw {S A : Type} (e : exception) : Method S A :=
  fun self log => (inl e, self, log).

Definition bind {S A B : Type} (c : Method S A) (k : A -> Method S B) : Method S B :=
  fun self log =>
    match c self log with
    | (inl e, self', log') => (inl e, self', log')
    | (inr a, self', log') => k a self' log'
    end.

(** [self.attr] *)
Definition getattr {S A : Type} (attr : S -> A) : Method S A :=
  fun self log => (inr (attr self), self, log).

(** [self.attr = v], as the update [upd] of the object. *)
Definition setattr {S : Type} (upd : S -> S) : Method S unit :=
  fun self log => (inr tt, upd self, log).

(** [logging.error(...)] *)
Definition logging_error {S : Type} (v : Violation) : Method S unit :=
  fun self log => (inr tt, self, log ++ [v]).

(** An expression that can raise, evaluated inside a method. *)
Definition lift {S A : Type} (c : result A) : Method S A :=
  fun self log => (c, self, log).

(** [self.attr.m(...)]: the method [m] of the object held by an attribute
    that is not [None]; the attribute is the same object afterwards, so its
    mutations are seen through [self]. *)
Definition call_on {S T A : Type} (put : T -> S -> S) (sub : T) (m : Method T A)
  : Method S A :=
  fun self log =>
    let '(r, sub', log') := m sub log in (r, put sub' self, log').

(** A block with local variables of its own: [body] runs on [init], and the
    final values of the locals are handed back. *)
Definition block {S L A : Type} (init : L) (body : Method L A) : Method S L :=
  fun self log =>
    match body init log with
    | (inl e, _, log') => (inl e, self, log')
    | (inr _, final, log') => (inr final, self, log')
    end.

Definition value {S A : Type} (r : result A * S * list Violation) : result A :=
  fst (fst r).
Definition object {S A : Type} (r : result A * S * list Violation) : S :=
  snd (fst r).
Definition logged {S A : Type} (r : result A * S * list Violation) : list Violation :=
  snd r.

End MethodM.

Declare Scope method_scope.
Delimit Scope method_scope with method.
Notation "x <- c ;; k" := (MethodM.bind c (fun x => k))
  (at level 61, c at next level, right associativity) : method_scope.
Notation "c ;;; k" := (MethodM.bind c (fun _ => k))
  (at level 61, right associativity) : method_scope.

(** [x is not None] *)
Definition is_not_None {A : Type} (x : option A) : bool :=
  match x with Some _ => true | None => false end.

(* ================================================================== *)
(** * Record schemas and the [Serializable] base class                 *)
(* ================================================================== *)

(** An entry of a class's [_collections_tags] dictionary. *)
Record collection_tag : Type := { array : bool; child_tag : string }.

(** The class-level tables of a record type, in declaration order.  The two
    dictionaries are kept as association lists: only their keys matter here. *)
Record Schema : Type := {
  _fields : list string;
  _required : list string;
  _collections_tags : list (string * collection_tag);
  _numeric_format : list (string * string)
}.

Definition mem (name : string) (names : list string) : bool :=
  existsb (String.eqb name) names.

(** The invariant of a record schema: every required name and every key of
    the collections table is a declared field. *)
Definition schema_wf (s : Schema) : bool :=
  forallb (fun name => mem name (_fields s)) (_required s)
  && forallb (fun name => mem name (_fields s)) (map fst (_collections_tags s)).

(** What the base class sees of a record type: its name, its tables, whether
    the attribute of a given name holds a value, and its enumerated string
    descriptors with the value each currently holds. *)
Class Serializable (T : Type) : Type := {
  class_name : string;
  class_schema : Schema;
  has_value : string -> T -> bool;
  enum_descriptors : list (string * list string);
  enum_value : string -> T -> option string
}.

Section BaseValidity.

Context {T : Type} `{Serializable T}.

Local Open Scope method_scope.

(** Modelled from the spec: the loop of the inherited
    [Serializable._basic_validity_check] over [_required] (base.py is not
    among the sources): an absent required attribute is reported as
    [MissingRequiredField] and makes the check fail. *)
Fixpoint check_required (names : list string) (all_required : bool)
  : Method T bool :=
  match names with
  | [] => MethodM.pure all_required
  | attribute :: rest =>
      p <- MethodM.getattr (has_value attribute) ;;
      (if p then MethodM.pure tt
       else MethodM.logging_error (MissingRequiredField class_name attribute)) ;;;
      check_required rest (all_required && p)
  end.

(** Modelled from the spec: the enumerated-field pass of validation (base.py
    is not among the sources): an enumerated attribute that is present with
    a value outside its declared set is reported as an enum violation. *)
Fixpoint check_enums (descriptors : list (string * list string)) (ok : bool)
  : Method T bool :=
  match descriptors with
  | [] => MethodM.pure ok
  | (attribute, values) :: rest =>
      v <- MethodM.getattr (enum_value attribute) ;;
      match v with
      | Some s =>
          if mem s values then check_enums rest ok
          else
            MethodM.logging_error (EnumViolationLogged attribute s) ;;;
            check_enums rest false
      | None => check_enums rest ok
      end
  end.

(** Modelled from the spec: [Serializable._basic_validity_check], the
    validation every record type inherits (base.py is not among the
    sources): required fields, then enumerated fields. *)
Definition Serializable_basic_validity_check : Method T bool :=
  all_required <- check_required (_required class_schema) true ;;
  enums_ok <- check_enums enum_descriptors true ;;
  MethodM.pure (all_required && enums_ok).

(** Modelled from the spec: assignment through a [_StringEnumDescriptor]
    (base.py is not among the sources).  [None] clears the attribute; a
    string of the declared set is stored; any other string is rejected in
    strict mode and stored, to be reported by validation, in lenient
    mode. *)
Definition StringEnumDescriptor_set (strict : bool) (values : list string)
    (upd : option string -> T -> T) (value : option string) : Method T unit :=
  match value with
  | None => MethodM.setattr (upd None)
  | Some s =>
      if mem s values then MethodM.setattr (upd (Some s))
      else if strict then MethodM.throw EnumViolation
      else MethodM.setattr (upd (Some s))
  end.

End BaseValidity.

(* ================================================================== *)
(** * sicd_elements/ImageFormation.py                                  *)
(* ================================================================== *)

(** [numpy.datetime64] values are counted in microseconds; a Python
    [complex] is its pair of binary64 components; a [ParametersCollection]
    is an ordered mapping from names to strings. *)
Definition DateTime : Type := Z.
Definition PyComplex : Type := (PyFloat.t * PyFloat.t)%type.
Definition ParametersCollection : Type := list (string * string).

Module RcvChanProcType.

Record t : Type := {
  NumChanProc : option Z;
  PRFScaleFactor : option PyFloat.t;
  ChanIndices : option (list Z)
}.

Definition schema : Schema := {|
  _fields := ["NumChanProc"; "PRFScaleFactor"; "ChanIndices"];
  _required := ["NumChanProc"; "ChanIndices"];
  _collections_tags :=
    [("ChanIndices", {| array := false; child_tag := "ChanIndex" |})];
  _numeric_format := [("PRFScaleFactor", "0.16G")]
|}.

End RcvChanProcType.

Module TxFrequencyProcType.

Record t : Type := { MinProc : option PyFloat.t; MaxProc : option PyFloat.t }.

Definition schema : Schema := {|
  _fields := ["MinProc"; "MaxProc"];
  _required := ["MinProc"; "MaxProc"];
  _collections_tags := [];
  _numeric_format := [("MinProc", "0.16G"); ("MaxProc", "0.16G")]
|}.

Definition set_MinProc (v : option PyFloat.t) (self : t) : t :=
  {| MinProc := v; MaxProc := MaxProc self |}.
Definition set_MaxProc (v : option PyFloat.t) (self : t) : t :=
  {| MinProc := MinProc self; MaxProc := v |}.

(** [TxFrequencyProcType(MinProc=..., MaxProc=...)] *)
Definition __init__ (MinProc MaxProc : option PyFloat.t) : t :=
  {| MinProc := MinProc; MaxProc := MaxProc |}.

Definition present (name : string) (self : t) : bool :=
  if (name =? "MinProc")%string then is_not_None (MinProc self)
  else if (name =? "MaxProc")%string then is_not_None (MaxProc self)
  else false.

#[global] Instance serializable : Serializable t := {|
  class_name := "TxFrequencyProcType";
  class_schema := schema;
  has_value := present;
  enum_descriptors := [];
  enum_value := fun _ _ => None
|}.

Local Open Scope method_scope.

Definition _apply_reference_frequency (reference_frequency : PyFloat.t)
  : Method t unit :=
  minproc <- MethodM.getattr MinProc ;;
  match minproc with
  | Some v =>
      MethodM.setattr (set_MinProc (Some (PyFloat.iadd v reference_frequency)))
  | None => MethodM.pure tt
  end ;;;
  maxproc <- MethodM.getattr MaxProc ;;
  match maxproc with
  | Some v =>
      MethodM.setattr (set_MaxProc (Some (PyFloat.iadd v reference_frequency)))
  | None => MethodM.pure tt
  end.

Definition _basic_validity_check : Method t bool :=
  condition <- Serializable_basic_validity_check ;;
  minproc <- MethodM.getattr MinProc ;;
  maxproc <- MethodM.getattr MaxProc ;;
  match minproc, maxproc with
  | Some lo, Some hi =>
      if PyFloat.ltb hi lo then
        MethodM.logging_error (CrossFieldViolation "MinProc <= MaxProc" lo hi) ;;;
        MethodM.pure false
      else MethodM.pure condition
  | _, _ => MethodM.pure condition
  end.

End TxFrequencyProcType.

Module ProcessingType.

Record t : Type := {
  Type_ : option string;
  Applied : option bool;
  Parameters_ : option ParametersCollection
}.

Definition schema : Schema := {|
  _fields := ["Type"; "Applied"; "Parameters"];
  _required := ["Type"; "Applied"];
  _collections_tags :=
    [("Parameters", {| array := false; child_tag := "Parameter" |})];
  _numeric_format := []
|}.

End ProcessingType.

Module DistortionType.

Record t : Type := {
  CalibrationDate : option DateTime;
  A : option PyFloat.t;
  F1 : option PyComplex;
  Q1 : option PyComplex;
  Q2 : option PyComplex;
  F2 : option PyComplex;
  Q3 : option PyComplex;
  Q4 : option PyComplex;
  GainErrorA : option PyFloat.t;
  GainErrorF1 : option PyFloat.t;
  GainErrorF2 : option PyFloat.t;
  PhaseErrorF1 : option PyFloat.t;
  PhaseErrorF2 : option PyFloat.t
}.

Definition fields : list string :=
  ["CalibrationDate"; "A"; "F1"; "F2"; "Q1"; "Q2"; "Q3"; "Q4";
   "GainErrorA"; "GainErrorF1"; "GainErrorF2"; "PhaseErrorF1"; "PhaseErrorF2"].

Definition schema : Schema := {|
  _fields := fields;
  _required := ["A"; "F1"; "Q1"; "Q2"; "F2"; "Q3"; "Q4"];
  _collections_tags := [];
  _numeric_format := map (fun key => (key, "0.16G")) (tl fields)
|}.

End DistortionType.

Module PolarizationCalibrationType.

Record t : Type := {
  DistortCorrectApplied : option bool;
  Distortion : option DistortionType.t
}.

Definition schema : Schema := {|
  _fields := ["DistortCorrectApplied"; "Distortion"];
  _required := ["DistortCorrectApplied"; "Distortion"];
  _collections_tags := [];
  _numeric_format := []
|}.

End PolarizationCalibrationType.

(** The sibling record the derivation hook reads.  RadarCollection.py is not
    among the sources; only the attributes the hook reads are kept:
    [RadarCollection.TxFrequency] and its [Min] and [Max]. *)
Module RadarCollectionType.

Record TxFrequencyType : Type := {
  Min : option PyFloat.t;
  Max : option PyFloat.t
}.

Record t : Type := { TxFrequency : option TxFrequencyType }.

End RadarCollectionType.

Module ImageFormationType.

Record t : Type := {
  RcvChanProc : option RcvChanProcType.t;
  TxRcvPolarizationProc : option string;
  TStartProc : option PyFloat.t;
  TEndProc : option PyFloat.t;
  TxFrequencyProc : option TxFrequencyProcType.t;
  SegmentIdentifier : option string;
  ImageFormAlgo : option string;
  STBeamComp : option string;
  ImageBeamComp : option string;
  AzAutofocus : option string;
  RgAutofocus : option string;
  Processings : option (list ProcessingType.t);
  PolarizationCalibration : option PolarizationCalibrationType.t
}.

Definition schema : Schema := {|
  _fields :=
    ["RcvChanProc"; "TxRcvPolarizationProc"; "TStartProc"; "TEndProc";
     "TxFrequencyProc"; "SegmentIdentifier"; "ImageFormAlgo"; "STBeamComp";
     "ImageBeamComp"; "AzAutofocus"; "RgAutofocus"; "Processings";
     "PolarizationCalibration"];
  _required :=
    ["RcvChanProc"; "TxRcvPolarizationProc"; "TStartProc"; "TEndProc";
     "TxFrequencyProc"; "ImageFormAlgo"; "STBeamComp"; "ImageBeamComp";
     "AzAutofocus"; "RgAutofocus"];
  _collections_tags :=
    [("Processings", {| array := false; child_tag := "Processing" |})];
  _numeric_format := [("TStartProc", "0.16G"); ("EndProc", "0.16G")]
|}.

Definition _DUAL_POLARIZATION_VALUES : list string :=
  ["V:V"; "V:H"; "V:RHC"; "V:LHC";
   "H:V"; "H:H"; "H:RHC"; "H:LHC";
   "RHC:V"; "RHC:H"; "RHC:RHC"; "RHC:LHC";
   "LHC:V"; "LHC:H"; "LHC:RHC"; "LHC:LHC";
   "OTHER"; "UNKNOWN"].
Definition _IMG_FORM_ALGO_VALUES : list string := ["PFA"; "RMA"; "RGAZCOMP"; "OTHER"].
Definition _ST_BEAM_COMP_VALUES : list string := ["NO"; "GLOBAL"; "SV"].
Definition _IMG_BEAM_COMP_VALUES : list string := ["NO"; "SV"].
Definition _AZ_AUTOFOCUS_VALUES : list string := _ST_BEAM_COMP_VALUES.
Definition _RG_AUTOFOCUS_VALUES : list string := _ST_BEAM_COMP_VALUES.

(** The [_StringEnumDescriptor] attributes of the class with their value
    sets, in declaration order. *)
Definition enums : list (string * list string) :=
  [("TxRcvPolarizationProc", _DUAL_POLARIZATION_VALUES);
   ("ImageFormAlgo", _IMG_FORM_ALGO_VALUES);
   ("STBeamComp", _ST_BEAM_COMP_VALUES);
   ("ImageBeamComp", _IMG_BEAM_COMP_VALUES);
   ("AzAutofocus", _AZ_AUTOFOCUS_VALUES);
   ("RgAutofocus", _RG_AUTOFOCUS_VALUES)].

Definition present (name : string) (self : t) : bool :=
  if (name =? "RcvChanProc")%string then is_not_None (RcvChanProc self)
  else if (name =? "TxRcvPolarizationProc")%string then is_not_None (TxRcvPolarizationProc self)
  else if (name =? "TStartProc")%string then is_not_None (TStartProc self)
  else if (name =? "TEndProc")%string then is_not_None (TEndProc self)
  else if (name =? "TxFrequencyProc")%string then is_not_None (TxFrequencyProc self)
  else if (name =? "SegmentIdentifier")%string then is_not_None (SegmentIdentifier self)
  else if (name =? "ImageFormAlgo")%string then is_not_None (ImageFormAlgo self)
  else if (name =? "STBeamComp")%string then is_not_None (STBeamComp self)
  else if (name =? "ImageBeamComp")%string then is_not_None (ImageBeamComp self)
  else if (name =? "AzAutofocus")%string then is_not_None (AzAutofocus self)
  else if (name =? "RgAutofocus")%string then is_not_None (RgAutofocus self)
  else if (name =? "Processings")%string then is_not_None (Processings self)
  else if (name =? "PolarizationCalibration")%string then is_not_None (PolarizationCalibration self)
  else false.

Definition get_enum (name : string) (self : t) : option string :=
  if (name =? "TxRcvPolarizationProc")%string then TxRcvPolarizationProc self
  else if (name =? "ImageFormAlgo")%string then ImageFormAlgo self
  else if (name =? "STBeamComp")%string then STBeamComp self
  else if (name =? "ImageBeamComp")%string then ImageBeamComp self
  else if (name =? "AzAutofocus")%string then AzAutofocus self
  else if (name =? "RgAutofocus")%string then RgAutofocus self
  else None.

Definition set_TxFrequencyProc (v : option TxFrequencyProcType.t) (self : t) : t :=
  {| RcvChanProc := RcvChanProc self;
     TxRcvPolarizationProc := TxRcvPolarizationProc self;
     TStartProc := TStartProc self;
     TEndProc := TEndProc self;
     TxFrequencyProc := v;
     SegmentIdentifier := SegmentIdentifier self;
     ImageFormAlgo := ImageFormAlgo self;
     STBeamComp := STBeamComp self;
     ImageBeamComp := ImageBeamComp self;
     AzAutofocus := AzAutofocus self;
     RgAutofocus := RgAutofocus self;
     Processings := Processings self;
     PolarizationCalibration := PolarizationCalibration self |}.

(** Storing a string in the enumerated attribute of the given name. *)
Definition set_enum (name : string) (v : option string) (self : t) : t :=
  let pick (attr : string) (old : option string) :=
    if (name =? attr)%string then v else old in
  {| RcvChanProc := RcvChanProc self;
     TxRcvPolarizationProc := pick "TxRcvPolarizationProc" (TxRcvPolarizationProc self);
     TStartProc := TStartProc self;
     TEndProc := TEndProc self;
     TxFrequencyProc := TxFrequencyProc self;
     SegmentIdentifier := SegmentIdentifier self;
     ImageFormAlgo := pick "ImageFormAlgo" (ImageFormAlgo self);
     STBeamComp := pick "STBeamComp" (STBeamComp self);
     ImageBeamComp := pick "ImageBeamComp" (ImageBeamComp self);
     AzAutofocus := pick "AzAutofocus" (AzAutofocus self);
     RgAutofocus := pick "RgAutofocus" (RgAutofocus self);
     Processings := Processings self;
     PolarizationCalibration := PolarizationCalibration self |}.

#[global] Instance serializable : Serializable t := {|
  class_name := "ImageFormationType";
  class_schema := schema;
  has_value := present;
  enum_descriptors := enums;
  enum_value := get_enum
|}.

Local Open Scope method_scope.

(** [self.TxFrequencyProc.attr]: an [AttributeError] when the attribute
    [TxFrequencyProc] holds [None]. *)
Definition TxFrequencyProc_attr {A : Type} (attr : TxFrequencyProcType.t -> A)
  : Method t A :=
  cur <- MethodM.getattr TxFrequencyProc ;;
  match cur with
  | Some tfp => MethodM.pure (attr tfp)
  | None => MethodM.throw AttributeError
  end.

(** [self.TxFrequencyProc.attr = v] *)
Definition TxFrequencyProc_setattr
    (upd : TxFrequencyProcType.t -> TxFrequencyProcType.t) : Method t unit :=
  cur <- MethodM.getattr TxFrequencyProc ;;
  match cur with
  | Some tfp => MethodM.setattr (set_TxFrequencyProc (Some (upd tfp)))
  | None => MethodM.throw AttributeError
  end.

Definition _derive_tx_frequency_proc (RadarCollection : option RadarCollectionType.t)
  : Method t unit :=
  match RadarCollection with
  | Some rc =>
      match RadarCollectionType.TxFrequency rc with
      | Some txf =>
          match RadarCollectionType.Min txf, RadarCollectionType.Max txf with
          | Some fmin, Some fmax =>
              cur <- MethodM.getattr TxFrequencyProc ;;
              if is_not_None cur then
                MethodM.setattr
                  (set_TxFrequencyProc
                     (Some (TxFrequencyProcType.__init__ (Some fmin) (Some fmax))))
              else
                minproc <- TxFrequencyProc_attr TxFrequencyProcType.MinProc ;;
                if negb (is_not_None minproc) then
                  TxFrequencyProc_setattr (TxFrequencyProcType.set_MinProc (Some fmin))
                else
                  maxproc <- TxFrequencyProc_attr TxFrequencyProcType.MaxProc ;;
                  if negb (is_not_None maxproc) then
                    TxFrequencyProc_setattr (TxFrequencyProcType.set_MaxProc (Some fmax))
                  else MethodM.pure tt
          | _, _ => MethodM.pure tt
          end
      | None => MethodM.pure tt
      end
  | None => MethodM.pure tt
  end.

Definition _apply_reference_frequency (reference_frequency : PyFloat.t)
  : Method t unit :=
  cur <- MethodM.getattr TxFrequencyProc ;;
  match cur with
  | Some tfp =>
      MethodM.call_on (fun tfp' => set_TxFrequencyProc (Some tfp')) tfp
        (TxFrequencyProcType._apply_reference_frequency reference_frequency)
  | None => MethodM.pure tt
  end.

Definition _basic_validity_check : Method t bool :=
  condition <- Serializable_basic_validity_check ;;
  tstart <- MethodM.getattr TStartProc ;;
  tend <- MethodM.getattr TEndProc ;;
  match tstart, tend with
  | Some lo, Some hi =>
      if PyFloat.ltb hi lo then
        MethodM.logging_error (CrossFieldViolation "TStartProc <= TEndProc" lo hi) ;;;
        MethodM.pure false
      else MethodM.pure condition
  | _, _ => MethodM.pure condition
  end.

End ImageFormationType.

(* ================================================================== *)
(** * Python strings                                                   *)
(* ================================================================== *)

Module PyStr.

Local Open Scope char_scope.

(** [str.isspace] on the characters of the ASCII range: tab, line feed,
    vertical tab, form feed, carriage return, the four separators
    [\x1c]..[\x1f] and the space. *)
Definition isspace (c : ascii) : bool :=
  let n := nat_of_ascii c in
  ((9 <=? n)%nat && (n <=? 13)%nat) || ((28 <=? n)%nat && (n <=? 32)%nat).

(** The fields of [s] between the characters that satisfy [sep]; empty
    fields are kept, and the empty string has one (empty) field. *)
Fixpoint fields (sep : ascii -> bool) (s : string) : list string :=
  match s with
  | EmptyString => [EmptyString]
  | String c s' =>
      if sep c then EmptyString :: fields sep s'
      else
        match fields sep s' with
        | [] => [String c EmptyString]
        | w :: ws => String c w :: ws
        end
  end.

(** [s.split(c)] for a one-character separator. *)
Definition split_char (c : ascii) (s : string) : list string :=
  fields (Ascii.eqb c) s.

(** [s.split()]: the maximal runs of characters that are not whitespace. *)
Definition split (s : string) : list string :=
  filter (fun w => negb (String.eqb w EmptyString)) (fields isspace s).

(** [sep.join(l)] *)
Fixpoint join (sep : string) (l : list string) : string :=
  match l with
  | [] => EmptyString
  | [w] => w
  | w :: l' => (w ++ sep ++ join sep l')%string
  end.

(** [s.strip()] *)
Fixpoint lstrip (s : string) : string :=
  match s with
  | String c s' => if isspace c then lstrip s' else s
  | EmptyString => EmptyString
  end.

Definition reverse (s : string) : string :=
  string_of_list_ascii (rev (list_ascii_of_string s)).

Definition strip (s : string) : string :=
  reverse (lstrip (reverse (lstrip s))).

(** The value of a decimal digit. *)
Definition digit (c : ascii) : option Z :=
  let n := nat_of_ascii c in
  if (48 <=? n)%nat && (n <=? 57)%nat then Some (Z.of_nat (n - 48)) else None.

(** The digits of an integer literal: decimal digits, with single
    underscores allowed between two digits. *)
Fixpoint int_digits (s : string) (acc : Z) (after_digit : bool) : option Z :=
  match s with
  | EmptyString => if after_digit then Some acc else None
  | String c s' =>
      match digit c with
      | Some d => int_digits s' (10 * acc + d)%Z true
      | None =>
          if Ascii.eqb c "_" && after_digit then int_digits s' acc false
          else None
      end
  end.

(** [int(s)] for a string [s]: surrounding whitespace is dropped, a sign
    may come first, and anything but an integer literal is a
    [ValueError]. *)
Definition int (s : string) : result Z :=
  let body := strip s in
  let parsed :=
    match body with
    | String "-" digits => option_map Z.opp (int_digits digits 0 false)
    | String "+" digits => int_digits digits 0 false
    | _ => int_digits body 0 false
    end in
  match parsed with
  | Some z => ret z
  | None => raise ValueError
  end.

(** ['{:d}'.format(z)] and [str(z)] for an integer [z]. *)
Definition format_d (z : Z) : string :=
  NilEmpty.string_of_int (Z.to_int z).

End PyStr.

(** [int_func] of base.py is Python's [int]. *)
Definition int_func (s : string) : result Z := PyStr.int s.

(* ================================================================== *)
(** * numpy arrays                                                     *)
(* ================================================================== *)

Module numpy.

(** An array of integers: the name of its dtype, its shape, and its
    entries in row-major order. *)
Record ndarray : Type := {
  dtype_name : string;
  shape : list nat;
  data : list Z
}.

Definition ndim (a : ndarray) : nat := List.length (shape a).

(** [a.shape[k]] *)
Definition shape_at (a : ndarray) (k : nat) : result nat :=
  match nth_error (shape a) k with
  | Some n => ret n
  | None => raise IndexError
  end.

(** An array is well formed when it has one entry per index. *)
Definition wf (a : ndarray) : Prop :=
  List.length (data a) = fold_right Nat.mul 1%nat (shape a).

(** [numpy.zeros((dim1, dim2), dtype=numpy.uint16)] *)
Definition zeros2 (dim1 : Z) (dim2 : nat) : result ndarray :=
  if (dim1 <? 0)%Z then raise ValueError
  else ret {| dtype_name := "uint16";
              shape := [Z.to_nat dim1; dim2];
              data := repeat 0%Z (Z.to_nat dim1 * dim2) |}.

(** The rows of a two-dimensional array with [ncols] columns. *)
Fixpoint rows (nrows ncols : nat) (entries : list Z) : list (list Z) :=
  match nrows with
  | O => []
  | S n => firstn ncols entries :: rows n ncols (skipn ncols entries)
  end.

(** [for entry in a]: the rows of a two-dimensional array.  Iterating
    over a scalar array is a [TypeError]; the entries of an array of
    another rank are arrays themselves, which the callers below cannot
    format, so any such entry is a [TypeError] as well. *)
Definition iter_rows (a : ndarray) : result (list (list Z)) :=
  match shape a with
  | [] => raise TypeError
  | [nrows; ncols] => ret (rows nrows ncols (data a))
  | O :: _ => ret []
  | _ => raise TypeError
  end.

(** Storing an integer in an array of unsigned 16-bit entries. *)
Definition to_uint16 (z : Z) : Z := z mod 65536.
Definition to_uint8 (z : Z) : Z := z mod 256.

(** [arr[i, :] = row] on a [dim1] by 3 array of [uint16]: the index must be
    in range, and the row has three entries, or one that is repeated. *)
Definition set_row (i : nat) (row : list Z) (a : ndarray) : result ndarray :=
  match shape a with
  | [dim1; dim2] =>
      if (dim1 <=? i)%nat then raise IndexError
      else
        let stored :=
          if (List.length row =? dim2)%nat then Some (map to_uint16 row)
          else match row with
               | [v] => Some (repeat (to_uint16 v) dim2)
               | _ => None
               end in
        match stored with
        | Some r =>
            ret {| dtype_name := dtype_name a;
                   shape := shape a;
                   data := firstn (i * dim2) (data a) ++ r
                           ++ skipn (i * dim2 + dim2) (data a) |}
        | None => raise ValueError
        end
  | _ => raise IndexError
  end.

(** [numpy.max(a)]: a [ValueError] on an array without entries. *)
Definition max (a : ndarray) : result Z :=
  match data a with
  | [] => raise ValueError
  | z :: zs => ret (fold_left Z.max zs z)
  end.

(** [numpy.cast[numpy.uint8](a)] *)
Definition cast_uint8 (a : ndarray) : ndarray :=
  {| dtype_name := "uint8"; shape := shape a; data := map to_uint8 (data a) |}.

(** [a.size]: the number of entries of the array. *)
Definition size (a : ndarray) : nat := fold_right Nat.mul 1%nat (shape a).

(** [numpy.zeros((dim1, ), dtype=numpy.uint8)] *)
Definition zeros1 (dim1 : Z) : result ndarray :=
  if (dim1 <? 0)%Z then raise ValueError
  else ret {| dtype_name := "uint8";
              shape := [Z.to_nat dim1];
              data := repeat 0%Z (Z.to_nat dim1) |}.

(** [arr[i] = v] on a one-dimensional array of [uint8], for an index that
    is not negative: the index must be below the length. *)
Definition set_item (i : nat) (v : Z) (a : ndarray) : result ndarray :=
  match shape a with
  | [dim1] =>
      if (dim1 <=? i)%nat then raise IndexError
      else ret {| dtype_name := dtype_name a;
                  shape := shape a;
                  data := firstn i (data a) ++ [to_uint8 v]
                          ++ skipn (i + 1) (data a) |}
  | _ => raise IndexError
  end.

(** [for entry in a] on an array whose entries are to be formatted as
    integers: the entries of a one-dimensional array.  Iterating over a
    scalar array is a [TypeError]; the entries of an array of a higher rank
    are arrays, which cannot be formatted, so any such entry is a
    [TypeError] as well. *)
Definition iter_scalars (a : ndarray) : result (list Z) :=
  match shape a with
  | [] => raise TypeError
  | [_] => ret (data a)
  | O :: _ => ret []
  | _ => raise TypeError
  end.

End numpy.

(* ================================================================== *)
(** * ElementTree elements                                             *)
(* ================================================================== *)

Module ElementTree.

#[warnings="-register-all"] Inductive Element : Type :=
| mkElement (tag : string) (attrib : list (string * string))
            (text : option string) (children : list Element).

Definition tag (e : Element) : string :=
  match e with mkElement t _ _ _ => t end.
Definition attrib (e : Element) : list (string * string) :=
  match e with mkElement _ a _ _ => a end.
Definition text (e : Element) : option string :=
  match e with mkElement _ _ t _ => t end.
Definition children (e : Element) : list Element :=
  match e with mkElement _ _ _ c => c end.

(** Lookup in a Python dictionary with string keys. *)
Fixpoint lookup (key : string) (d : list (string * string)) : option string :=
  match d with
  | [] => None
  | (k, v) :: d' => if String.eqb key k then Some v else lookup key d'
  end.

(** [d[key]] *)
Definition getitem (d : list (string * string)) (key : string) : result string :=
  match lookup key d with
  | Some v => ret v
  | None => raise KeyError
  end.

(** [node.find(name)]: the first child with the given tag, or [None]. *)
Definition find_tag (name : string) (node : Element) : option Element :=
  List.find (fun child => String.eqb (tag child) name) (children node).

(** [node.find('default:' + name, xml_ns)]: the prefix is resolved in the
    namespace dictionary, and is a [SyntaxError] when it is not there. *)
Definition find_default (name : string) (xml_ns : list (string * string))
    (node : Element) : result (option Element) :=
  match lookup "default" xml_ns with
  | Some uri => ret (find_tag ("{" ++ uri ++ "}" ++ name)%string node)
  | None => raise SyntaxError
  end.

End ElementTree.


(** Modelled from the spec: [_get_node_value] of base.py, which is not among
    the sources: the text of an element; an element without text has no
    value to return. *)
Definition _get_node_value (node : ElementTree.Element) : result string :=
  match ElementTree.text node with
  | Some value => ret value
  | None => raise AttributeError
  end.

(* ================================================================== *)
(** * sidd_elements/sidd1_elements/ProductDisplay.py                   *)
(* ================================================================== *)

(** The values that reach the [RemapLUT] setter: [None], a list or tuple
    (given with the outcome of [numpy.array(value, dtype=numpy.uint8)] on
    it), an array, or an object of any other type. *)
Inductive PyValue : Type :=
| PyNone
| PySequence (as_uint8 : result numpy.ndarray)
| PyArray (a : numpy.ndarray)
| PyOther.

Module ColorDisplayRemapType.

Record t : Type := { _remap_lut : option numpy.ndarray }.

Local Open Scope method_scope.

(** The setter of the property [RemapLUT]. *)
Definition RemapLUT_setter (value : PyValue) : Method t unit :=
  match value with
  | PyNone => MethodM.setattr (fun _ => {| _remap_lut := None |})
  | _ =>
      value' <- match value with
                | PySequence converted =>
                    a <- MethodM.lift converted ;; MethodM.pure (PyArray a)
                | _ => MethodM.pure value
                end ;;
      match value' with
      | PyArray a =>
          if negb (mem (numpy.dtype_name a) ["uint8"; "uint16"]) then
            MethodM.throw ValueError
          else
            bad_shape <-
              (if negb (numpy.ndim a =? 2)%nat then
                 dim2 <- MethodM.lift (numpy.shape_at a 1) ;;
                 MethodM.pure (negb (dim2 =? 3)%nat)
               else MethodM.pure false) ;;
            if (bad_shape : bool) then MethodM.throw ValueError
            else MethodM.setattr (fun _ => {| _remap_lut := Some a |})
      | _ => MethodM.throw ValueError
      end
  end.

(** [cls(RemapLUT=value)] *)
Definition __init__ {S : Type} (RemapLUT : PyValue) : Method S t :=
  fun caller log =>
    match RemapLUT_setter RemapLUT {| _remap_lut := None |} log with
    | (inr _, self, log') => (inr self, caller, log')
    | (inl e, _, log') => (inl e, caller, log')
    end.

(** The property [size]. *)
Definition size (self : t) : result nat :=
  match _remap_lut self with
  | None => ret O
  | Some lut => numpy.shape_at lut 0
  end.

(** The local variables [arr] and [i] of [from_node]. *)
Record locals : Type := { arr : numpy.ndarray; i : nat }.

Definition set_arr (a : numpy.ndarray) (l : locals) : locals :=
  {| arr := a; i := i l |}.
Definition set_i (n : nat) (l : locals) : locals :=
  {| arr := arr l; i := n |}.

(** [[int(el) for el in entry]]: the comprehension runs over the
    characters of the string [entry]. *)
Definition int_of_each (entry : string) : result (list Z) :=
  mapM (fun el => PyStr.int (String el EmptyString)) (list_ascii_of_string entry).

(** The loop [for entry in entries] of [from_node]. *)
Fixpoint for_entries (entries : list string) : Method locals unit :=
  match entries with
  | [] => MethodM.pure tt
  | entry :: rest =>
      if (String.length entry =? 0)%nat then for_entries rest
      else
        let sentry := PyStr.split_char "," entry in
        if negb (List.length sentry =? 3)%nat then
          MethodM.logging_error (MalformedExternalData entry) ;;;
          for_entries rest
        else
          row <- MethodM.lift (int_of_each entry) ;;
          a <- MethodM.getattr arr ;;
          i0 <- MethodM.getattr i ;;
          a' <- MethodM.lift (numpy.set_row i0 row a) ;;
          MethodM.setattr (set_arr a') ;;;
          MethodM.setattr (set_i (i0 + 1)) ;;;
          for_entries rest
  end.

(** The class method [from_node]; it has no [self], the caller's state is
    left alone. *)
Definition from_node {S : Type} (node : ElementTree.Element)
    (xml_ns : option (list (string * string))) : Method S t :=
  lut_node <- MethodM.lift
                match xml_ns with
                | None => ret (ElementTree.find_tag "RemapLUT" node)
                | Some ns => ElementTree.find_default "RemapLUT" ns node
                end ;;
  match lut_node with
  | Some lut_node =>
      size_attr <- MethodM.lift
                     (ElementTree.getitem (ElementTree.attrib lut_node) "size") ;;
      dim1 <- MethodM.lift (int_func size_attr) ;;
      let dim2 := 3%nat in
      arr0 <- MethodM.lift (numpy.zeros2 dim1 dim2) ;;
      value <- MethodM.lift (_get_node_value lut_node) ;;
      let entries := PyStr.split value in
      final <- MethodM.block {| arr := arr0; i := O |} (for_entries entries) ;;
      top <- MethodM.lift (numpy.max (arr final)) ;;
      let arr1 := if (top <? 256)%Z then numpy.cast_uint8 (arr final)
                  else arr final in
      __init__ (PyArray arr1)
  | None => __init__ PyNone
  end.

(** The format call of [to_node] on one row: three decimal integers
    separated by commas, from the first three entries of the row. *)
Definition format_entry (entry : list Z) : result string :=
  match entry with
  | r :: g :: b :: _ =>
      ret (PyStr.format_d r ++ "," ++ PyStr.format_d g ++ "," ++ PyStr.format_d b)%string
  | _ => raise IndexError
  end.

(** [to_node]: the element it creates under the parent and returns. *)
Definition to_node (tag : string) (self : t) : result ElementTree.Element :=
  match _remap_lut self with
  | Some lut =>
      (entries <- numpy.iter_rows lut ;;
       formatted <- mapM format_entry entries ;;
       let value := PyStr.join " " formatted in
       n <- size self ;;
       ret (ElementTree.mkElement tag [] None
              [ElementTree.mkElement "RemapLUT"
                 [("size", PyStr.format_d (Z.of_nat n))] (Some value) []]))%result
  | None => ret (ElementTree.mkElement tag [] None [])
  end.

(** [len(self)] *)
Definition __len__ (self : t) : result nat :=
  match _remap_lut self with
  | None => ret O
  | Some lut => numpy.shape_at lut 0
  end.

(** The class method [from_array]. *)
Definition from_array {S : Type} (array : PyValue) : Method S t :=
  __init__ array.

End ColorDisplayRemapType.

Module MonochromeDisplayRemapType.

Record t : Type := {
  RemapType : option string;
  RemapParameters : option ParametersCollection;
  _remap_lut : option numpy.ndarray
}.

Definition schema : Schema := {|
  _fields := ["RemapType"; "RemapParameters"];
  _required := ["RemapType"];
  _collections_tags :=
    [("RemapParameters", {| array := false; child_tag := "RemapParameter" |})];
  _numeric_format := []
|}.

Definition set__remap_lut (v : option numpy.ndarray) (self : t) : t :=
  {| RemapType := RemapType self;
     RemapParameters := RemapParameters self;
     _remap_lut := v |}.

Local Open Scope method_scope.

(** The setter of the property [RemapLUT]. *)
Definition RemapLUT_setter (value : PyValue) : Method t unit :=
  match value with
  | PyNone => MethodM.setattr (set__remap_lut None)
  | _ =>
      value' <- match value with
                | PySequence converted =>
                    a <- MethodM.lift converted ;; MethodM.pure (PyArray a)
                | _ => MethodM.pure value
                end ;;
      match value' with
      | PyArray a =>
          if negb (String.eqb (numpy.dtype_name a) "uint8") then
            MethodM.throw ValueError
          else if negb (numpy.ndim a =? 1)%nat then MethodM.throw ValueError
          else MethodM.setattr (set__remap_lut (Some a))
      | _ => MethodM.throw ValueError
      end
  end.

(** The local variables [arr] and [i] of [from_node]. *)
Record locals : Type := { arr : numpy.ndarray; i : nat }.

Definition set_arr (a : numpy.ndarray) (l : locals) : locals :=
  {| arr := a; i := i l |}.
Definition set_i (n : nat) (l : locals) : locals :=
  {| arr := arr l; i := n |}.

(** The loop [for entry in entries] of [from_node]. *)
Fixpoint for_entries (entries : list string) : Method locals unit :=
  match entries with
  | [] => MethodM.pure tt
  | entry :: rest =>
      if (String.length entry =? 0)%nat then for_entries rest
      else
        v <- MethodM.lift (PyStr.int entry) ;;
        a <- MethodM.getattr arr ;;
        i0 <- MethodM.getattr i ;;
        a' <- MethodM.lift (numpy.set_item i0 v a) ;;
        MethodM.setattr (set_arr a') ;;;
        MethodM.setattr (set_i (i0 + 1)) ;;;
        for_entries rest
  end.

(** The class method [from_node], up to its last line: the value it puts
    under the key [RemapLUT] of [kwargs], if any, before it hands [kwargs]
    to the inherited [from_node] of base.py. *)
Definition from_node_RemapLUT {S : Type} (node : ElementTree.Element)
    (xml_ns : option (list (string * string))) : Method S (option numpy.ndarray) :=
  lut_node <- MethodM.lift
                match xml_ns with
                | None => ret (ElementTree.find_tag "RemapLUT" node)
                | Some ns => ElementTree.find_default "RemapLUT" ns node
                end ;;
  match lut_node with
  | Some lut_node =>
      size_attr <- MethodM.lift
                     (ElementTree.getitem (ElementTree.attrib lut_node) "size") ;;
      dim1 <- MethodM.lift (int_func size_attr) ;;
      arr0 <- MethodM.lift (numpy.zeros1 dim1) ;;
      value <- MethodM.lift (_get_node_value lut_node) ;;
      let entries := PyStr.split value in
      final <- MethodM.block {| arr := arr0; i := O |} (for_entries entries) ;;
      MethodM.pure (Some (arr final))
  | None => MethodM.pure None
  end.

(** [to_node], after the inherited [to_node] of base.py has made the element
    [node] of the other fields: the child [RemapLUT] is appended to it when
    the node holds a table. *)
Definition to_node (node : ElementTree.Element) (self : t)
  : result ElementTree.Element :=
  match _remap_lut self with
  | Some lut =>
      (entries <- numpy.iter_scalars lut ;;
       let value := PyStr.join " " (map PyStr.format_d entries) in
       ret (ElementTree.mkElement (ElementTree.tag node)
              (ElementTree.attrib node) (ElementTree.text node)
              (ElementTree.children node
               ++ [ElementTree.mkElement "RemapLUT"
                     [("size", PyStr.format_d (Z.of_nat (numpy.size lut)))]
                     (Some value) []])))%result
  | None => ret node
  end.

End MonochromeDisplayRemapType.

Module RemapChoiceType.

Record t : Type := {
  ColorDisplayRemap : option ColorDisplayRemapType.t;
  MonochromeDisplayRemap : option MonochromeDisplayRemapType.t
}.

Definition schema : Schema := {|
  _fields := ["ColorDisplayRemap"; "MonochromeDisplayRemap"];
  _required := [];
  _collections_tags := [];
  _numeric_format := []
|}.

End RemapChoiceType.

Module MonitorCompensationAppliedType.

Record t : Type := { Gamma : option PyFloat.t; XMin : option PyFloat.t }.

Definition fields : list string := ["Gamma"; "XMin"].

Definition schema : Schema := {|
  _fields := fields;
  _required := ["Gamma"; "XMin"];
  _collections_tags := [];
  _numeric_format := map (fun key => (key, "0.16G")) fields
|}.

End MonitorCompensationAppliedType.

Module DRAHistogramOverridesType.

Record t : Type := { ClipMin : option Z; ClipMax : option Z }.

Definition schema : Schema := {|
  _fields := ["ClipMin"; "ClipMax"];
  _required := ["ClipMin"; "ClipMax"];
  _collections_tags := [];
  _numeric_format := []
|}.

End DRAHistogramOverridesType.

Module ProductDisplayType.

Record t : Type := {
  PixelType : option string;
  RemapInformation : option RemapChoiceType.t;
  MagnificationMethod : option string;
  DecimationMethod : option string;
  DRAHistogramOverrides : option DRAHistogramOverridesType.t;
  MonitorCompensationApplied : option MonitorCompensationAppliedType.t;
  DisplayExtensions : option ParametersCollection
}.

Definition schema : Schema := {|
  _fields :=
    ["PixelType"; "RemapInformation"; "MagnificationMethod"; "DecimationMethod";
     "DRAHistogramOverrides"; "MonitorCompensationApplied"; "DisplayExtension"];
  _required := ["PixelType"];
  _collections_tags :=
    [("DisplayExtensions", {| array := false; child_tag := "DisplayExtension" |})];
  _numeric_format := []
|}.

Definition PIXEL_TYPE_VALUES : list string :=
  ["MONO8I"; "MONO8LU"; "MONO16I"; "RGBL8U"; "RGB24I"].
Definition MAGNIFICATION_METHOD_VALUES : list string :=
  ["NEAREST_NEIGHBOR"; "BILINEAR"; "LAGRANGE"].
Definition DECIMATION_METHOD_VALUES : list string :=
  ["NEAREST_NEIGHBOR"; "BILINEAR"; "BRIGHTEST_PIXEL"; "LAGRANGE"].

(** The [_StringEnumDescriptor] attributes of the class with their value
    sets, in declaration order. *)
Definition enums : list (string * list string) :=
  [("PixelType", PIXEL_TYPE_VALUES);
   ("MagnificationMethod", MAGNIFICATION_METHOD_VALUES);
   ("DecimationMethod", DECIMATION_METHOD_VALUES)].

Definition present (name : string) (self : t) : bool :=
  if (name =? "PixelType")%string then is_not_None (PixelType self)
  else if (name =? "RemapInformation")%string then is_not_None (RemapInformation self)
  else if (name =? "MagnificationMethod")%string then is_not_None (MagnificationMethod self)
  else if (name =? "DecimationMethod")%string then is_not_None (DecimationMethod self)
  else if (name =? "DRAHistogramOverrides")%string then is_not_None (DRAHistogramOverrides self)
  else if (name =? "MonitorCompensationApplied")%string then
    is_not_None (MonitorCompensationApplied self)
  else if (name =? "DisplayExtensions")%string then is_not_None (DisplayExtensions self)
  else false.

Definition get_enum (name : string) (self : t) : option string :=
  if (name =? "PixelType")%string then PixelType self
  else if (name =? "MagnificationMethod")%string then MagnificationMethod self
  else if (name =? "DecimationMethod")%string then DecimationMethod self
  else None.

(** Storing a string in the enumerated attribute of the given name. *)
Definition set_enum (name : string) (v : option string) (self : t) : t :=
  let pick (attr : string) (old : option string) :=
    if (name =? attr)%string then v else old in
  {| PixelType := pick "PixelType" (PixelType self);
     RemapInformation := RemapInformation self;
     MagnificationMethod := pick "MagnificationMethod" (MagnificationMethod self);
     DecimationMethod := pick "DecimationMethod" (DecimationMethod self);
     DRAHistogramOverrides := DRAHistogramOverrides self;
     MonitorCompensationApplied := MonitorCompensationApplied self;
     DisplayExtensions := DisplayExtensions self |}.

#[global] Instance serializable : Serializable t := {|
  class_name := "ProductDisplayType";
  class_schema := schema;
  has_value := present;
  enum_descriptors := enums;
  enum_value := get_enum
|}.

(** The class defines no check of its own: it inherits the one of
    [Serializable]. *)
Definition _basic_validity_check : Method t bool :=
  Serializable_basic_validity_check.

End ProductDisplayType.

(** The record types of the three source files that declare a field table,
    by class name. *)
Definition record_schemas : list (string * Schema) :=
  [("RcvChanProcType", RcvChanProcType.schema);
   ("TxFrequencyProcType", TxFrequencyProcType.schema);
   ("ProcessingType", ProcessingType.schema);
   ("DistortionType", DistortionType.schema);
   ("PolarizationCalibrationType", PolarizationCalibrationType.schema);
   ("ImageFormationType", ImageFormationType.schema);
   ("MonochromeDisplayRemapType", MonochromeDisplayRemapType.schema);
   ("RemapChoiceType", RemapChoiceType.schema);
   ("MonitorCompensationAppliedType", MonitorCompensationAppliedType.schema);
   ("DRAHistogramOverridesType", DRAHistogramOverridesType.schema);
   ("ProductDisplayType", ProductDisplayType.schema)].

(** Assignment to the enumerated attribute [name] of a node, through its
    descriptor: the value set is the one the class declares for [name]. *)
Definition assign_enum {T : Type} `{Serializable T}
    (set_enum : string -> option string -> T -> T)
    (strict : bool) (name : string) (value : option string) : Method T unit :=
  match find (fun d => String.eqb (fst d) name) enum_descriptors with
  | Some (_, values) =>
      StringEnumDescriptor_set strict values (set_enum name) value
  | None => MethodM.throw AttributeError
  end.

(* ================================================================== *)
(** * nitf/tres/unclass/CSCCGA.py                                      *)
(* ================================================================== *)

Module TREElement.

(** The type strings of [add_field]: ['s'] for a string, ['d'] for an
    integer. *)
Inductive typ_string : Type := s | d.

(** One call [self.add_field(attribute, typ_string, leng, value)]. *)
Record field : Type := {
  attribute : string;
  typ : typ_string;
  leng : nat
}.

(** The value a field holds once it is parsed. *)
Inductive field_value : Type :=
| StringValue (text : string)
| IntegerValue (z : Z).

(** The declared length of a record: the sum of the widths of its fields. *)
Definition total_width (layout : list field) : nat :=
  fold_right (fun f n => (leng f + n)%nat) O layout.

(** The byte offset at which each field starts, from [start] on. *)
Fixpoint offsets (layout : list field) (start : nat) : list nat :=
  match layout with
  | [] => []
  | f :: rest => start :: offsets rest (start + leng f)
  end.

(** Modelled from the spec: the coercion of one slice of the buffer, per the
    kind of its field (tre_elements.py is not among the sources): a string
    field keeps the bytes of the slice, an integer field reads them as a
    number and fails with [TypeError] when they are not one. *)
Definition coerce (kind : typ_string) (slice : string) : result field_value :=
  match kind with
  | s => ret (StringValue slice)
  | d =>
      match int_func slice with
      | inr z => ret (IntegerValue z)
      | inl _ => raise TypeError
      end
  end.

(** Modelled from the spec: the fields of a buffer, sliced at cumulative
    offsets in declaration order (tre_elements.py is not among the
    sources). *)
Fixpoint parse_fields (layout : list field) (start : nat) (value : string)
  : result (list (string * field_value)) :=
  match layout with
  | [] => ret []
  | f :: rest =>
      (v <- coerce (typ f) (substring start (leng f) value) ;;
       vs <- parse_fields rest (start + leng f) value ;;
       ret ((attribute f, v) :: vs))%result
  end.

(** Modelled from the spec: binary deserialization of a fixed-width record
    (tre_elements.py is not among the sources): a buffer shorter than the
    total width of the layout fails with [TruncatedRecord]; bytes past the
    total width are not looked at. *)
Definition deserialize (layout : list field) (value : string)
  : result (list (string * field_value)) :=
  if (String.length value <? total_width layout)%nat then raise TruncatedRecord
  else parse_fields layout O value.

End TREElement.

Module CSCCGAType.

Import TREElement.

(** The calls of [add_field] in [CSCCGAType.__init__], in order. *)
Definition layout : list field :=
  [ {| attribute := "CCG_SOURCE"; typ := s; leng := 18 |};
    {| attribute := "REG_SENSOR"; typ := s; leng := 6 |};
    {| attribute := "ORIGIN_LINE"; typ := d; leng := 7 |};
    {| attribute := "ORIGIN_SAMPLE"; typ := d; leng := 5 |};
    {| attribute := "AS_CELL_SIZE"; typ := d; leng := 7 |};
    {| attribute := "CS_CELL_SIZE"; typ := d; leng := 5 |};
    {| attribute := "CCG_MAX_LINE"; typ := d; leng := 7 |};
    {| attribute := "CCG_MAX_SAMPLE"; typ := d; leng := 5 |} ].

(** [CSCCGAType(value)] *)
Definition __init__ (value : string) : result (list (string * field_value)) :=
  deserialize layout value.

End CSCCGAType.

(* ================================================================== *)
(** * Nodes, predicates and abbreviations of the statements            *)
(* ================================================================== *)

Unset Implicit Arguments.

(** A node with every attribute absent. *)
Definition empty_ImageFormation : ImageFormationType.t :=
  {| ImageFormationType.RcvChanProc := None;
     ImageFormationType.TxRcvPolarizationProc := None;
     ImageFormationType.TStartProc := None;
     ImageFormationType.TEndProc := None;
     ImageFormationType.TxFrequencyProc := None;
     ImageFormationType.SegmentIdentifier := None;
     ImageFormationType.ImageFormAlgo := None;
     ImageFormationType.STBeamComp := None;
     ImageFormationType.ImageBeamComp := None;
     ImageFormationType.AzAutofocus := None;
     ImageFormationType.RgAutofocus := None;
     ImageFormationType.Processings := None;
     ImageFormationType.PolarizationCalibration := None |}.

Definition sibling_10_20 : option RadarCollectionType.t :=
  Some {| RadarCollectionType.TxFrequency :=
            Some {| RadarCollectionType.Min := Some 10%float;
                    RadarCollectionType.Max := Some 20%float |} |}.

(** A method is a report when it returns, leaves its object as it found it
    and only appends diagnostics, each of which satisfies [P]. *)
Definition reports {S A : Type} (P : Violation -> Prop) (m : Method S A) : Prop :=
  forall (self : S) (log : list Violation),
  exists (a : A) (extra : list Violation),
    m self log = (inr a, self, log ++ extra) /\ Forall P extra.

Definition not_cross_field (v : Violation) : Prop := is_cross_field v = false.

(** The node after [_apply_reference_frequency], for either class. *)
Definition shifted (rf : PyFloat.t) (node : TxFrequencyProcType.t)
  : TxFrequencyProcType.t :=
  MethodM.object (TxFrequencyProcType._apply_reference_frequency rf node []).

Definition shifted_ImageFormation (rf : PyFloat.t) (self : ImageFormationType.t)
  : ImageFormationType.t :=
  MethodM.object (ImageFormationType._apply_reference_frequency rf self []).

Definition node_1e16 : TxFrequencyProcType.t :=
  TxFrequencyProcType.__init__ (Some 1e16%float) (Some 1e16%float).

(** A string assigned to the enumerated attribute [name] is never silently
    accepted: strict assignment raises and leaves the node alone; lenient
    assignment stores it, and the validity check [check] of the node then
    fails and reports the violation. *)
Definition never_silently_accepted {T : Type} `{Serializable T}
    (set_enum : string -> option string -> T -> T) (check : Method T bool)
    (name value : string) : Prop :=
  forall (self : T) (log : list Violation),
    assign_enum set_enum true name (Some value) self log =
      (inl EnumViolation, self, log)
    /\ exists stored : T,
        assign_enum set_enum false name (Some value) self log =
          (inr tt, stored, log)
        /\ exists report : list Violation,
            check stored [] = (inr false, stored, report)
            /\ In (EnumViolationLogged name value) report.

(** Every character of the string satisfies [p]. *)
Fixpoint all_chars (p : ascii -> bool) (s : string) : bool :=
  match s with
  | EmptyString => true
  | String c s' => p c && all_chars p s'
  end.

(** The characters of a formatted integer: digits and the minus sign. *)
Definition numeral_char (c : ascii) : bool :=
  match PyStr.digit c with
  | Some _ => true
  | None => Ascii.eqb c "-"
  end.

(** The element [to_node] makes for a node that holds a table. *)
Definition lut_element (tag size text : string) : ElementTree.Element :=
  ElementTree.mkElement tag [] None
    [ElementTree.mkElement "RemapLUT" [("size", size)] (Some text) []].

(** The two bounds of the sibling record, when the sibling, its
    [TxFrequency] and both [Min] and [Max] are there: the condition of the
    outer [if] of [_derive_tx_frequency_proc]. *)
Definition sibling_bounds (RadarCollection : option RadarCollectionType.t)
  : option (PyFloat.t * PyFloat.t) :=
  match RadarCollection with
  | Some rc =>
      match RadarCollectionType.TxFrequency rc with
      | Some txf =>
          match RadarCollectionType.Min txf, RadarCollectionType.Max txf with
          | Some fmin, Some fmax => Some (fmin, fmax)
          | _, _ => None
          end
      | None => None
      end
  | None => None
  end.

(** [math.isnan(x)] *)
Definition isnan (x : PyFloat.t) : bool := PrimFloat.is_nan x.

(** A bound that cannot be compared: it is absent, or it is a NaN. *)
Definition absent_or_nan (x : option PyFloat.t) : bool :=
  match x with
  | None => true
  | Some v => isnan v
  end.

(** Every key of the numeric format table is a declared field. *)
Definition numeric_format_wf (sch : Schema) : bool :=
  forallb (fun name => mem name (_fields sch)) (map fst (_numeric_format sch)).

(** Every required name is a declared field. *)
Definition required_wf (sch : Schema) : bool :=
  forallb (fun name => mem name (_fields sch)) (_required sch).

(** A color table as the setter of [ColorDisplayRemapType] keeps it: of
    dtype uint8 or uint16, and of rank 2 or with a second dimension of 3. *)
Definition color_lut_kept (a : numpy.ndarray) : Prop :=
  mem (numpy.dtype_name a) ["uint8"; "uint16"] = true
  /\ match numpy.shape a with
     | [_; _] => True
     | _ :: dim2 :: _ => dim2 = 3%nat
     | _ => False
     end.


(** The first line of both [from_node] methods: the child [RemapLUT] of the
    element, looked up with or without a namespace. *)
Definition find_RemapLUT (xml_ns : option (list (string * string)))
    (node : ElementTree.Element) : result (option ElementTree.Element) :=
  match xml_ns with
  | None => ret (ElementTree.find_tag "RemapLUT" node)
  | Some ns => ElementTree.find_default "RemapLUT" ns node
  end.


(** A node of [ColorDisplayRemapType] without a table. *)
Definition no_table : ColorDisplayRemapType.t :=
  {| ColorDisplayRemapType._remap_lut := None |}.

(** The entries of a table of unsigned bytes. *)
Definition uint8_values (entries : list Z) : Prop :=
  Forall (fun z => (0 <= z < 256)%Z) entries.


(** An entry that [split] finds again in a text: it is not empty and has no
    whitespace in it. *)
Definition plain_entry (entry : string) : Prop :=
  entry <> EmptyString
  /\ all_chars (fun c => negb (PyStr.isspace c)) entry = true.

(** A node of [MonochromeDisplayRemapType] that holds the table [lut]. *)
Definition with_table (lut : option numpy.ndarray)
    (self : MonochromeDisplayRemapType.t) : MonochromeDisplayRemapType.t :=
  MonochromeDisplayRemapType.set__remap_lut lut self.

(* ================================================================== *)
(** * Properties                                                       *)
(* ================================================================== *)

(** ** Record schemas *)

Lemma ImageFormationType_schema_wf :
  schema_wf ImageFormationType.schema = true.
Proof. reflexivity. Qed.

(** C4: every name of [_required] and every key of [_collections_tags] should
    be a name of [_fields].  This holds for every record type of the sources
    but [ProductDisplayType]: its collections table is keyed by
    [DisplayExtensions], the name of the descriptor, while its field table
    spells the name [DisplayExtension]. *)
Theorem C4_ProductDisplayType_collections_key_not_a_field :
  schema_wf ProductDisplayType.schema = false
  /\ mem "DisplayExtensions"
       (map fst (_collections_tags ProductDisplayType.schema)) = true
  /\ mem "DisplayExtensions" (_fields ProductDisplayType.schema) = false
  /\ mem "DisplayExtension" (_fields ProductDisplayType.schema) = true
  /\ forallb (fun entry => schema_wf (snd entry)
                           || String.eqb (fst entry) "ProductDisplayType")
       record_schemas = true.
Proof. repeat split. Qed.

(** ** The derivation hook of [ImageFormationType] *)

Section DeriveTxFrequencyProc.

Variable self : ImageFormationType.t.
Variables fmin fmax : PyFloat.t.
Variable log : list Violation.

Let RadarCollection : option RadarCollectionType.t :=
  Some {| RadarCollectionType.TxFrequency :=
            Some {| RadarCollectionType.Min := Some fmin;
                    RadarCollectionType.Max := Some fmax |} |}.

(** With both bounds of the sibling present, the hook replaces a
    [TxFrequencyProc] that is there, and raises when there is none. *)
Lemma derive_tx_frequency_proc_spec :
  ImageFormationType._derive_tx_frequency_proc RadarCollection self log =
  match ImageFormationType.TxFrequencyProc self with
  | Some _ =>
      (inr tt,
       ImageFormationType.set_TxFrequencyProc
         (Some (TxFrequencyProcType.__init__ (Some fmin) (Some fmax))) self,
       log)
  | None => (inl AttributeError, self, log)
  end.
Proof.
  unfold ImageFormationType._derive_tx_frequency_proc, RadarCollection; simpl.
  unfold MethodM.bind, MethodM.getattr.
  destruct (ImageFormationType.TxFrequencyProc self) eqn:E; simpl.
  - reflexivity.
  - unfold ImageFormationType.TxFrequencyProc_attr, MethodM.bind, MethodM.getattr.
    rewrite E. reflexivity.
Qed.

End DeriveTxFrequencyProc.

(** C1: the hook should never overwrite a value that is present, should
    construct [TxFrequencyProc] from the sibling when it is absent, and
    should copy only the bound that is missing when one is.  The test of the
    source is inverted ([is not None] where [is None] is meant): a
    [TxFrequencyProc] of (1.0, 2.0) is replaced by the sibling's
    (10.0, 20.0); one with [MaxProc] missing has its [MinProc] of 1.0
    replaced as well; and an absent one is not constructed: the next test
    reads an attribute of [None] and raises [AttributeError]. *)
Theorem C1_derive_overwrites_present_and_raises_on_absent :
  let present :=
    ImageFormationType.set_TxFrequencyProc
      (Some (TxFrequencyProcType.__init__ (Some 1%float) (Some 2%float)))
      empty_ImageFormation in
  let half :=
    ImageFormationType.set_TxFrequencyProc
      (Some (TxFrequencyProcType.__init__ (Some 1%float) None))
      empty_ImageFormation in
  ImageFormationType._derive_tx_frequency_proc sibling_10_20 present [] =
    (inr tt,
     ImageFormationType.set_TxFrequencyProc
       (Some (TxFrequencyProcType.__init__ (Some 10%float) (Some 20%float)))
       empty_ImageFormation,
     [])
  /\ ImageFormationType._derive_tx_frequency_proc sibling_10_20 half [] =
    (inr tt,
     ImageFormationType.set_TxFrequencyProc
       (Some (TxFrequencyProcType.__init__ (Some 10%float) (Some 20%float)))
       empty_ImageFormation,
     [])
  /\ ImageFormationType._derive_tx_frequency_proc sibling_10_20
       empty_ImageFormation [] =
    (inl AttributeError, empty_ImageFormation, []).
Proof. repeat split. Qed.

(** ** The fixed-width layout of CSCCGA *)

Lemma substring_app (n m : nat) (value extra : string) :
  (n + m <= String.length value)%nat ->
  substring n m (value ++ extra)%string = substring n m value.
Proof.
  revert n m.
  induction value as [|c value IH]; intros n m Hlen; simpl in Hlen.
  - assert (n = O) by lia. assert (m = O) by lia. subst.
    simpl. destruct extra; reflexivity.
  - destruct n as [|n].
    + destruct m as [|m]; simpl.
      * reflexivity.
      * f_equal. apply IH. lia.
    + simpl. apply IH. lia.
Qed.

Lemma parse_fields_app (layout : list TREElement.field) (value extra : string) :
  forall start : nat,
    (start + TREElement.total_width layout <= String.length value)%nat ->
    TREElement.parse_fields layout start (value ++ extra)%string =
    TREElement.parse_fields layout start value.
Proof.
  induction layout as [|f rest IH]; intros start Hlen; simpl in *.
  - reflexivity.
  - rewrite substring_app by lia.
    rewrite IH by lia.
    reflexivity.
Qed.

Lemma string_length_app (a b : string) :
  String.length (a ++ b)%string = (String.length a + String.length b)%nat.
Proof. induction a as [|c a IH]; simpl; [reflexivity | now rewrite IH]. Qed.

(** C7: the CSCCGA layout has eight fields of widths 18, 6, 7, 5, 7, 5, 7, 5,
    60 bytes in all; deserialization slices the buffer at the cumulative
    offsets 0, 18, 24, 31, 36, 43, 48, 55, in declaration order, and coerces
    each slice per the kind of its field; a buffer shorter than 60 bytes
    fails with [TruncatedRecord]; bytes from offset 60 on are ignored. *)
Theorem C7_CSCCGA_deserialize (value : string) :
  map TREElement.leng CSCCGAType.layout = [18; 6; 7; 5; 7; 5; 7; 5]%nat
  /\ TREElement.total_width CSCCGAType.layout = 60%nat
  /\ TREElement.offsets CSCCGAType.layout 0 = [0; 18; 24; 31; 36; 43; 48; 55]%nat
  /\ ((String.length value < 60)%nat ->
      CSCCGAType.__init__ value = inl TruncatedRecord)
  /\ ((60 <= String.length value)%nat ->
      CSCCGAType.__init__ value =
      (ccg_source <- TREElement.coerce TREElement.s (substring 0 18 value) ;;
       reg_sensor <- TREElement.coerce TREElement.s (substring 18 6 value) ;;
       origin_line <- TREElement.coerce TREElement.d (substring 24 7 value) ;;
       origin_sample <- TREElement.coerce TREElement.d (substring 31 5 value) ;;
       as_cell_size <- TREElement.coerce TREElement.d (substring 36 7 value) ;;
       cs_cell_size <- TREElement.coerce TREElement.d (substring 43 5 value) ;;
       ccg_max_line <- TREElement.coerce TREElement.d (substring 48 7 value) ;;
       ccg_max_sample <- TREElement.coerce TREElement.d (substring 55 5 value) ;;
       ret [("CCG_SOURCE", ccg_source); ("REG_SENSOR", reg_sensor);
            ("ORIGIN_LINE", origin_line); ("ORIGIN_SAMPLE", origin_sample);
            ("AS_CELL_SIZE", as_cell_size); ("CS_CELL_SIZE", cs_cell_size);
            ("CCG_MAX_LINE", ccg_max_line);
            ("CCG_MAX_SAMPLE", ccg_max_sample)])%result)
  /\ (forall extra : string,
      (60 <= String.length value)%nat ->
      CSCCGAType.__init__ (value ++ extra)%string = CSCCGAType.__init__ value).
Proof.
  unfold CSCCGAType.__init__, TREElement.deserialize.
  change (TREElement.total_width CSCCGAType.layout) with 60%nat.
  repeat split.
  - intros Hshort.
    apply Nat.ltb_lt in Hshort. rewrite Hshort. reflexivity.
  - intros Hlong.
    apply Nat.ltb_ge in Hlong. rewrite Hlong.
    unfold CSCCGAType.layout, TREElement.parse_fields, bind; simpl.
    repeat match goal with
           | |- context [int_func ?x] =>
               destruct (int_func x); simpl; try reflexivity
           end.
  - intros extra Hlong.
    assert (Hext : (60 <= String.length (value ++ extra)%string)%nat)
      by (rewrite string_length_app; lia).
    apply Nat.ltb_ge in Hext. rewrite Hext.
    pose proof Hlong as Hlong'. apply Nat.ltb_ge in Hlong'. rewrite Hlong'.
    apply parse_fields_app.
    change (TREElement.total_width CSCCGAType.layout) with 60%nat. lia.
Qed.

(** A 60-byte CSCCGA record, one 59 bytes long, and the values of the first:
    the hypotheses of C7 hold of them. *)
Lemma C7_CSCCGA_deserialize_witness :
  let record :=
    "SENSOR-A/CCG-V1.0 REG-01000012300045000001000020000051200640"%string in
  let short :=
    "SENSOR-A/CCG-V1.0 REG-0100001230004500000100002000005120064"%string in
  CSCCGAType.__init__ short = inl TruncatedRecord
  /\ CSCCGAType.__init__ record =
     inr [("CCG_SOURCE", TREElement.StringValue "SENSOR-A/CCG-V1.0 ");
          ("REG_SENSOR", TREElement.StringValue "REG-01");
          ("ORIGIN_LINE", TREElement.IntegerValue 123);
          ("ORIGIN_SAMPLE", TREElement.IntegerValue 45);
          ("AS_CELL_SIZE", TREElement.IntegerValue 10);
          ("CS_CELL_SIZE", TREElement.IntegerValue 20);
          ("CCG_MAX_LINE", TREElement.IntegerValue 512);
          ("CCG_MAX_SAMPLE", TREElement.IntegerValue 640)]
  /\ CSCCGAType.__init__ (record ++ "trailing bytes")%string =
     CSCCGAType.__init__ record.
Proof.
  intros record short.
  split; [| split].
  - apply (proj1 (proj2 (proj2 (proj2 (C7_CSCCGA_deserialize short))))).
    vm_compute. lia.
  - rewrite (proj1 (proj2 (proj2 (proj2 (proj2 (C7_CSCCGA_deserialize record)))))).
    + reflexivity.
    + vm_compute. lia.
  - apply (proj2 (proj2 (proj2 (proj2 (proj2 (C7_CSCCGA_deserialize record)))))).
    vm_compute. lia.
Defined.

(** ** The setter of [ColorDisplayRemapType.RemapLUT] *)

(** The guard of the setter on an array of an accepted dtype, by the shape of
    the array: a [ValueError] needs both a rank other than 2 and a second
    dimension other than 3; an array of rank below 2 has no second dimension
    to read. *)
Lemma RemapLUT_setter_by_shape (a : numpy.ndarray)
    (self : ColorDisplayRemapType.t) (log : list Violation) :
  mem (numpy.dtype_name a) ["uint8"; "uint16"] = true ->
  ColorDisplayRemapType.RemapLUT_setter (PyArray a) self log =
  match numpy.shape a with
  | [_; _] => (inr tt, {| ColorDisplayRemapType._remap_lut := Some a |}, log)
  | _ :: dim2 :: _ =>
      if (dim2 =? 3)%nat
      then (inr tt, {| ColorDisplayRemapType._remap_lut := Some a |}, log)
      else (inl ValueError, self, log)
  | _ => (inl IndexError, self, log)
  end.
Proof.
  intros Hdtype.
  unfold ColorDisplayRemapType.RemapLUT_setter, MethodM.bind, MethodM.pure.
  cbv beta iota. rewrite Hdtype. cbv beta iota delta [negb].
  unfold numpy.ndim, numpy.shape_at, MethodM.lift, MethodM.throw, MethodM.setattr.
  destruct (numpy.shape a) as [|d1 [|d2 [|d3 rest]]]; simpl; try reflexivity.
  destruct (d2 =? 3)%nat; reflexivity.
Qed.

(** C10: an array of dtype uint8 or uint16 with exactly two dimensions is
    stored by the setter of [RemapLUT] without an exception, whatever its
    second dimension is. *)
Theorem C10_RemapLUT_setter_stores_any_two_dimensional_array
    (a : numpy.ndarray) (self : ColorDisplayRemapType.t) (log : list Violation) :
  mem (numpy.dtype_name a) ["uint8"; "uint16"] = true ->
  numpy.ndim a = 2%nat ->
  ColorDisplayRemapType.RemapLUT_setter (PyArray a) self log =
  (inr tt, {| ColorDisplayRemapType._remap_lut := Some a |}, log).
Proof.
  intros Hdtype Hndim.
  rewrite RemapLUT_setter_by_shape by assumption.
  unfold numpy.ndim in Hndim.
  destruct (numpy.shape a) as [|d1 [|d2 [|d3 rest]]]; simpl in Hndim;
    try discriminate.
  reflexivity.
Qed.

(** A 2 by 4 table of uint8 is stored, though its rows are not RGB triples. *)
Lemma C10_RemapLUT_setter_witness :
  let a := {| numpy.dtype_name := "uint8";
              numpy.shape := [2; 4]%nat;
              numpy.data := [1; 2; 3; 4; 5; 6; 7; 8] |} in
  ColorDisplayRemapType.RemapLUT_setter (PyArray a)
    {| ColorDisplayRemapType._remap_lut := None |} [] =
  (inr tt, {| ColorDisplayRemapType._remap_lut := Some a |}, []).
Proof.
  intros a.
  apply (C10_RemapLUT_setter_stores_any_two_dimensional_array a
           {| ColorDisplayRemapType._remap_lut := None |} []);
    reflexivity.
Defined.

(** ** Comparison of binary64 values *)

Lemma SFcompare_antisym (x y : spec_float) :
  SFcompare y x = option_map CompOpp (SFcompare x y).
Proof.
  destruct x as [sx|sx| |sx mx ex], y as [sy|sy| |sy my ey]; simpl;
    try reflexivity;
    try (destruct sx; reflexivity);
    try (destruct sy; reflexivity);
    try (destruct sx, sy; reflexivity).
  f_equal.
  destruct sx, sy; simpl; try reflexivity;
    rewrite (Z.compare_antisym ex ey);
    destruct (ex ?= ey)%Z; simpl; try reflexivity;
    change (Pos.compare_cont Eq my mx) with (Pos.compare my mx);
    change (Pos.compare_cont Eq mx my) with (Pos.compare mx my);
    rewrite (Pos.compare_antisym mx my);
    destruct (mx ?= my)%positive; reflexivity.
Qed.

(** [x <= y] excludes [y < x], also for infinities and signed zeros (and no
    comparison with a NaN holds). *)
Lemma PyFloat_leb_not_ltb (x y : PyFloat.t) :
  PyFloat.leb x y = true -> PyFloat.ltb y x = false.
Proof.
  unfold PyFloat.leb, PyFloat.ltb.
  rewrite leb_spec, ltb_spec.
  unfold SFleb, SFltb.
  rewrite (SFcompare_antisym (Prim2SF x) (Prim2SF y)).
  destruct (SFcompare (Prim2SF x) (Prim2SF y)) as [[| |]|]; simpl;
    intros H; try reflexivity; discriminate H.
Qed.

(** ** Validation reports and does nothing else *)

Section Reports.

Context {S : Type} (P : Violation -> Prop).

Lemma reports_pure {A : Type} (a : A) : reports P (MethodM.pure (S := S) a).
Proof.
  intros self log. exists a, []. rewrite app_nil_r. split; [reflexivity | constructor].
Qed.

Lemma reports_getattr {A : Type} (attr : S -> A) :
  reports P (MethodM.getattr attr).
Proof.
  intros self log. exists (attr self), []. rewrite app_nil_r.
  split; [reflexivity | constructor].
Qed.

Lemma reports_logging_error (v : Violation) :
  P v -> reports P (MethodM.logging_error (S := S) v).
Proof.
  intros Hv self log. exists tt, [v].
  split; [reflexivity | repeat constructor; exact Hv].
Qed.

Lemma reports_bind {A B : Type} (m : Method S A) (k : A -> Method S B) :
  reports P m -> (forall a, reports P (k a)) -> reports P (MethodM.bind m k).
Proof.
  intros Hm Hk self log.
  destruct (Hm self log) as (a & extra1 & Em & H1).
  destruct (Hk a self (log ++ extra1)) as (b & extra2 & Ek & H2).
  exists b, (extra1 ++ extra2).
  unfold MethodM.bind. rewrite Em, Ek, app_assoc.
  split; [reflexivity | apply Forall_app; split; assumption].
Qed.

End Reports.

Section BaseValidityReports.

Context {T : Type} `{Serializable T}.

Lemma check_required_reports (names : list string) :
  forall all_required : bool,
    reports not_cross_field (check_required names all_required).
Proof.
  induction names as [|attribute rest IH]; intros all_required; simpl.
  - apply reports_pure.
  - apply reports_bind; [apply reports_getattr | intros p].
    apply reports_bind; [| intros _; apply IH].
    destruct p; [apply reports_pure | apply reports_logging_error; reflexivity].
Qed.

Lemma check_enums_reports (descriptors : list (string * list string)) :
  forall ok : bool, reports not_cross_field (check_enums descriptors ok).
Proof.
  induction descriptors as [|[attribute values] rest IH]; intros ok; simpl.
  - apply reports_pure.
  - apply reports_bind; [apply reports_getattr | intros [v|]]; [| apply IH].
    destruct (mem v values); [apply IH |].
    apply reports_bind; [apply reports_logging_error; reflexivity | intros _; apply IH].
Qed.

Lemma Serializable_basic_validity_check_reports :
  reports not_cross_field Serializable_basic_validity_check.
Proof.
  unfold Serializable_basic_validity_check.
  apply reports_bind; [apply check_required_reports | intros all_required].
  apply reports_bind; [apply check_enums_reports | intros enums_ok].
  apply reports_pure.
Qed.

End BaseValidityReports.

Lemma filter_cross_field_extra (log extra : list Violation) :
  Forall not_cross_field extra ->
  filter is_cross_field (log ++ extra) = filter is_cross_field log.
Proof.
  intros Hextra. rewrite filter_app.
  replace (filter is_cross_field extra) with (@nil Violation).
  - apply app_nil_r.
  - induction Hextra as [|v extra Hv _ IH]; simpl; [reflexivity |].
    unfold not_cross_field in Hv. now rewrite Hv.
Qed.

Lemma reports_weaken {S A : Type} (P Q : Violation -> Prop) (m : Method S A) :
  (forall v, P v -> Q v) -> reports P m -> reports Q m.
Proof.
  intros HPQ Hm self log.
  destruct (Hm self log) as (a & extra & E & HP).
  exists a, extra. split; [exact E |].
  eapply Forall_impl; [exact HPQ | exact HP].
Qed.

Lemma TxFrequencyProcType_basic_validity_check_reports :
  reports (fun _ => True) TxFrequencyProcType._basic_validity_check.
Proof.
  unfold TxFrequencyProcType._basic_validity_check.
  apply reports_bind; [| intros condition].
  { apply reports_weaken with (P := not_cross_field); [trivial |].
    apply Serializable_basic_validity_check_reports. }
  apply reports_bind; [apply reports_getattr | intros [lo|]];
    (apply reports_bind; [apply reports_getattr | intros [hi|]]);
    try apply reports_pure.
  destruct (PyFloat.ltb hi lo); [| apply reports_pure].
  apply reports_bind; [apply reports_logging_error; exact I | intros _].
  apply reports_pure.
Qed.

Lemma ImageFormationType_basic_validity_check_reports :
  reports (fun _ => True) ImageFormationType._basic_validity_check.
Proof.
  unfold ImageFormationType._basic_validity_check.
  apply reports_bind; [| intros condition].
  { apply reports_weaken with (P := not_cross_field); [trivial |].
    apply Serializable_basic_validity_check_reports. }
  apply reports_bind; [apply reports_getattr | intros [lo|]];
    (apply reports_bind; [apply reports_getattr | intros [hi|]]);
    try apply reports_pure.
  destruct (PyFloat.ltb hi lo); [| apply reports_pure].
  apply reports_bind; [apply reports_logging_error; exact I | intros _].
  apply reports_pure.
Qed.

Lemma reports_object {S A : Type} (P : Violation -> Prop) (m : Method S A) :
  reports P m ->
  forall self log,
    MethodM.object (m self log) = self
    /\ exists a, MethodM.value (m self log) = inr a.
Proof.
  intros Hm self log.
  destruct (Hm self log) as (a & extra & E & _).
  rewrite E. split; [reflexivity | now exists a].
Qed.

(** C9: the basic validity check of a [TxFrequencyProcType] node and of an
    [ImageFormationType] node returns a verdict and leaves the node, with
    every field of it and of its nested records, as it was: it only appends
    to the log. *)
Theorem C9_basic_validity_check_does_not_mutate :
  (forall (self : TxFrequencyProcType.t) (log : list Violation),
      let r := TxFrequencyProcType._basic_validity_check self log in
      MethodM.object r = self
      /\ (exists condition, MethodM.value r = inr condition)
      /\ exists extra, MethodM.logged r = log ++ extra)
  /\ (forall (self : ImageFormationType.t) (log : list Violation),
      let r := ImageFormationType._basic_validity_check self log in
      MethodM.object r = self
      /\ (exists condition, MethodM.value r = inr condition)
      /\ exists extra, MethodM.logged r = log ++ extra).
Proof.
  split; intros self log r; subst r.
  - destruct (TxFrequencyProcType_basic_validity_check_reports self log)
      as (a & extra & E & _).
    rewrite E. repeat split; [now exists a | now exists extra].
  - destruct (ImageFormationType_basic_validity_check_reports self log)
      as (a & extra & E & _).
    rewrite E. repeat split; [now exists a | now exists extra].
Qed.

(** C5: with [TStartProc] and [TEndProc] both present, the check of an
    [ImageFormationType] node reports exactly one cross-field violation, for
    the pair of times, and returns [False] when [TEndProc < TStartProc]; it
    reports none when [TStartProc <= TEndProc]. *)
Theorem C5_time_bounds_cross_field_violation
    (self : ImageFormationType.t) (log : list Violation)
    (tstart tend : PyFloat.t) :
  ImageFormationType.TStartProc self = Some tstart ->
  ImageFormationType.TEndProc self = Some tend ->
  let r := ImageFormationType._basic_validity_check self log in
  (PyFloat.ltb tend tstart = true ->
   MethodM.value r = inr false
   /\ filter is_cross_field (MethodM.logged r) =
      filter is_cross_field log
      ++ [CrossFieldViolation "TStartProc <= TEndProc" tstart tend])
  /\ (PyFloat.leb tstart tend = true ->
      filter is_cross_field (MethodM.logged r) = filter is_cross_field log).
Proof.
  intros Hstart Hend r.
  destruct (Serializable_basic_validity_check_reports
              (T := ImageFormationType.t) self log)
    as (condition & extra & E & Hextra).
  assert (Er : r =
               if PyFloat.ltb tend tstart
               then (inr false, self,
                     (log ++ extra)
                     ++ [CrossFieldViolation "TStartProc <= TEndProc" tstart tend])
               else (inr condition, self, log ++ extra)).
  { subst r. unfold ImageFormationType._basic_validity_check, MethodM.bind.
    rewrite E. unfold MethodM.getattr. rewrite Hstart, Hend.
    destruct (PyFloat.ltb tend tstart); reflexivity. }
  rewrite Er. clear Er r.
  split.
  - intros Hlt. rewrite Hlt.
    unfold MethodM.value, MethodM.logged. cbn [fst snd].
    split; [reflexivity |].
    rewrite filter_app, filter_cross_field_extra by assumption.
    reflexivity.
  - intros Hle. rewrite (PyFloat_leb_not_ltb _ _ Hle).
    unfold MethodM.logged. cbn [fst snd].
    apply filter_cross_field_extra; assumption.
Qed.

(** The node of the scenario, TStartProc = 5.0 and TEndProc = 3.0, and the
    node with the two times exchanged. *)
Lemma C5_time_bounds_witness :
  let node (tstart tend : PyFloat.t) :=
    {| ImageFormationType.RcvChanProc := None;
       ImageFormationType.TxRcvPolarizationProc := None;
       ImageFormationType.TStartProc := Some tstart;
       ImageFormationType.TEndProc := Some tend;
       ImageFormationType.TxFrequencyProc := None;
       ImageFormationType.SegmentIdentifier := None;
       ImageFormationType.ImageFormAlgo := None;
       ImageFormationType.STBeamComp := None;
       ImageFormationType.ImageBeamComp := None;
       ImageFormationType.AzAutofocus := None;
       ImageFormationType.RgAutofocus := None;
       ImageFormationType.Processings := None;
       ImageFormationType.PolarizationCalibration := None |} in
  (MethodM.value
     (ImageFormationType._basic_validity_check (node 5%float 3%float) []) =
   inr false
   /\ filter is_cross_field
        (MethodM.logged
           (ImageFormationType._basic_validity_check (node 5%float 3%float) [])) =
      [] ++ [CrossFieldViolation "TStartProc <= TEndProc" 5%float 3%float])
  /\ filter is_cross_field
       (MethodM.logged
          (ImageFormationType._basic_validity_check (node 3%float 5%float) [])) =
     [].
Proof.
  intros node. split.
  - apply (proj1 (C5_time_bounds_cross_field_violation
                    (node 5%float 3%float) [] 5%float 3%float eq_refl eq_refl)).
    reflexivity.
  - apply (proj2 (C5_time_bounds_cross_field_violation
                    (node 3%float 5%float) [] 3%float 5%float eq_refl eq_refl)).
    reflexivity.
Defined.

(** ** The reference-frequency shift *)

(** One shift: each bound that is present is increased by the offset, in
    binary64 arithmetic; a bound that is absent stays absent; nothing is
    logged and nothing is raised. *)
Lemma TxFrequencyProcType_apply_reference_frequency_spec
    (rf : PyFloat.t) (node : TxFrequencyProcType.t) (log : list Violation) :
  TxFrequencyProcType._apply_reference_frequency rf node log =
  (inr tt,
   {| TxFrequencyProcType.MinProc :=
        option_map (fun x => PyFloat.add x rf) (TxFrequencyProcType.MinProc node);
      TxFrequencyProcType.MaxProc :=
        option_map (fun x => PyFloat.add x rf) (TxFrequencyProcType.MaxProc node) |},
   log).
Proof.
  destruct node as [[lo|] [hi|]]; reflexivity.
Qed.

Lemma ImageFormationType_apply_reference_frequency_spec
    (rf : PyFloat.t) (self : ImageFormationType.t) (log : list Violation) :
  ImageFormationType._apply_reference_frequency rf self log =
  (inr tt,
   match ImageFormationType.TxFrequencyProc self with
   | Some tfp =>
       ImageFormationType.set_TxFrequencyProc
         (Some (MethodM.object
                  (TxFrequencyProcType._apply_reference_frequency rf tfp log)))
         self
   | None => self
   end,
   log).
Proof.
  unfold ImageFormationType._apply_reference_frequency, MethodM.bind,
    MethodM.getattr, MethodM.call_on.
  destruct (ImageFormationType.TxFrequencyProc self) as [tfp|]; [| reflexivity].
  rewrite TxFrequencyProcType_apply_reference_frequency_spec. reflexivity.
Qed.

Lemma shifted_spec (rf : PyFloat.t) (node : TxFrequencyProcType.t) :
  shifted rf node =
  {| TxFrequencyProcType.MinProc :=
       option_map (fun x => PyFloat.add x rf) (TxFrequencyProcType.MinProc node);
     TxFrequencyProcType.MaxProc :=
       option_map (fun x => PyFloat.add x rf) (TxFrequencyProcType.MaxProc node) |}.
Proof.
  unfold shifted.
  now rewrite TxFrequencyProcType_apply_reference_frequency_spec.
Qed.

Lemma shifted_ImageFormation_TxFrequencyProc
    (rf : PyFloat.t) (self : ImageFormationType.t) :
  ImageFormationType.TxFrequencyProc (shifted_ImageFormation rf self) =
  option_map (shifted rf) (ImageFormationType.TxFrequencyProc self).
Proof.
  unfold shifted_ImageFormation.
  rewrite ImageFormationType_apply_reference_frequency_spec.
  unfold MethodM.object at 1. cbn [fst snd].
  destruct (ImageFormationType.TxFrequencyProc self) as [tfp|] eqn:E.
  - reflexivity.
  - exact E.
Qed.

(** C6 as stated fails: in binary64, 1e16 + 1.0 is 1e16 again (the sum is
    halfway between two representable numbers and rounds to the even one), so
    shifting 1e16 by 1.0 twice leaves it at 1e16, while one shift by
    1.0 + 1.0 gives 10000000000000002.0. *)
Lemma C6_shift_twice_differs_from_shift_of_sum :
  TxFrequencyProcType.MinProc (shifted 1%float (shifted 1%float node_1e16))
    = Some 1e16%float
  /\ TxFrequencyProcType.MinProc
       (shifted (PyFloat.add 1%float 1%float) node_1e16)
     = Some 10000000000000002%float
  /\ PrimFloat.eqb 1e16%float 10000000000000002%float = false
  /\ ~ (forall (node : TxFrequencyProcType.t) (a b : PyFloat.t),
           TxFrequencyProcType.MinProc (shifted b (shifted a node)) =
           TxFrequencyProcType.MinProc (shifted (PyFloat.add a b) node)).
Proof.
  repeat split.
  intros Hlinear.
  specialize (Hlinear node_1e16 1%float 1%float).
  assert (Heqb : option_map (PrimFloat.eqb 1e16%float)
                   (TxFrequencyProcType.MinProc
                      (shifted 1%float (shifted 1%float node_1e16))) =
                 Some true) by reflexivity.
  rewrite Hlinear in Heqb.
  discriminate Heqb.
Qed.

(** C6, amended: a bound that is absent before a shift is absent after it;
    a bound [x] that is present becomes [(x + a) + b] after the shifts by [a]
    and then [b], and [x + (a + b)] after the single shift by [a + b], every
    sum rounded to binary64; so the two nodes are the same as soon as these
    two sums agree for the bounds that are present.  The same holds of the
    [TxFrequencyProc] of an [ImageFormationType] node, which stays absent
    when it is absent. *)
Theorem C6_reference_frequency_shift_twice
    (node : TxFrequencyProcType.t) (self : ImageFormationType.t)
    (a b : PyFloat.t) :
  let twice := shifted b (shifted a node) in
  let once := shifted (PyFloat.add a b) node in
  TxFrequencyProcType.MinProc twice =
    option_map (fun x => PyFloat.add (PyFloat.add x a) b)
      (TxFrequencyProcType.MinProc node)
  /\ TxFrequencyProcType.MaxProc twice =
    option_map (fun x => PyFloat.add (PyFloat.add x a) b)
      (TxFrequencyProcType.MaxProc node)
  /\ TxFrequencyProcType.MinProc once =
    option_map (fun x => PyFloat.add x (PyFloat.add a b))
      (TxFrequencyProcType.MinProc node)
  /\ TxFrequencyProcType.MaxProc once =
    option_map (fun x => PyFloat.add x (PyFloat.add a b))
      (TxFrequencyProcType.MaxProc node)
  /\ ((forall x,
          In (Some x) [TxFrequencyProcType.MinProc node;
                       TxFrequencyProcType.MaxProc node] ->
          PyFloat.add (PyFloat.add x a) b = PyFloat.add x (PyFloat.add a b)) ->
      twice = once)
  /\ ImageFormationType.TxFrequencyProc
       (shifted_ImageFormation b (shifted_ImageFormation a self)) =
     option_map (fun tfp => shifted b (shifted a tfp))
       (ImageFormationType.TxFrequencyProc self)
  /\ ImageFormationType.TxFrequencyProc
       (shifted_ImageFormation (PyFloat.add a b) self) =
     option_map (shifted (PyFloat.add a b))
       (ImageFormationType.TxFrequencyProc self).
Proof.
  intros twice once. subst twice once.
  rewrite !shifted_ImageFormation_TxFrequencyProc, !shifted_spec.
  cbn [TxFrequencyProcType.MinProc TxFrequencyProcType.MaxProc].
  split; [| split; [| split; [| split; [| split; [| split]]]]].
  - now destruct (TxFrequencyProcType.MinProc node).
  - now destruct (TxFrequencyProcType.MaxProc node).
  - reflexivity.
  - reflexivity.
  - intros Hexact.
    destruct node as [[lo|] [hi|]]; cbn in *;
      repeat match goal with
             | x : PyFloat.t |- _ => rewrite (Hexact x) by auto
             end; reflexivity.
  - destruct (ImageFormationType.TxFrequencyProc self) as [tfp|];
      [| reflexivity].
    cbn [option_map]. now rewrite !shifted_spec.
  - reflexivity.
Qed.

(** The shifts of 1.0 by 2.0 and 3.0 are exact, so here twice is once. *)
Lemma C6_reference_frequency_shift_witness :
  let node := TxFrequencyProcType.__init__ (Some 1%float) None in
  shifted 3%float (shifted 2%float node) =
  shifted (PyFloat.add 2%float 3%float) node.
Proof.
  intros node.
  apply (proj1 (proj2 (proj2 (proj2 (proj2
           (C6_reference_frequency_shift_twice node empty_ImageFormation
              2%float 3%float)))))).
  intros x [Hx | [Hx | []]]; [| discriminate Hx].
  injection Hx as <-. reflexivity.
Defined.

(** ** Enumerated strings *)

Section EnumValidation.

Context {T : Type} `{Serializable T}.

Lemma check_enums_returns (descriptors : list (string * list string)) :
  forall (ok : bool) (self : T) (log : list Violation),
  exists (b : bool) (extra : list Violation),
    check_enums descriptors ok self log = (inr b, self, log ++ extra)
    /\ (ok = false -> b = false).
Proof.
  induction descriptors as [|[attribute values] rest IH]; intros ok self log;
    simpl.
  - exists ok, []. rewrite app_nil_r. split; [reflexivity | trivial].
  - unfold MethodM.bind, MethodM.getattr.
    destruct (enum_value attribute self) as [v|]; [| apply IH].
    destruct (mem v values); [apply IH |].
    unfold MethodM.logging_error.
    destruct (IH false self (log ++ [EnumViolationLogged attribute v]))
      as (b & extra & E & Hb).
    exists b, ([EnumViolationLogged attribute v] ++ extra).
    rewrite E, app_assoc. split; [reflexivity | intros _; now apply Hb].
Qed.

(** An enumerated attribute that holds a string outside its value set is
    reported, and the pass over the enumerated attributes fails. *)
Lemma check_enums_reports_violation (descriptors : list (string * list string))
    (name : string) (values : list string) (value : string) (self : T) :
  In (name, values) descriptors ->
  enum_value name self = Some value ->
  mem value values = false ->
  forall (ok : bool) (log : list Violation),
  exists extra : list Violation,
    check_enums descriptors ok self log = (inr false, self, log ++ extra)
    /\ In (EnumViolationLogged name value) extra.
Proof.
  intros Hin Hvalue Hmem.
  induction descriptors as [|[attribute values'] rest IH]; intros ok log;
    [contradiction |].
  simpl. unfold MethodM.bind, MethodM.getattr.
  destruct Hin as [Hhead | Hrest].
  - injection Hhead as -> ->.
    rewrite Hvalue, Hmem. unfold MethodM.logging_error.
    destruct (check_enums_returns rest false self
                (log ++ [EnumViolationLogged name value]))
      as (b & extra & E & Hb).
    rewrite (Hb eq_refl) in E.
    exists ([EnumViolationLogged name value] ++ extra).
    rewrite E, app_assoc. split; [reflexivity | now left].
  - specialize (IH Hrest).
    destruct (enum_value attribute self) as [v|]; [| apply IH].
    destruct (mem v values'); [apply IH |].
    unfold MethodM.logging_error.
    destruct (IH false (log ++ [EnumViolationLogged attribute v]))
      as (extra & E & Hextra).
    exists ([EnumViolationLogged attribute v] ++ extra).
    rewrite E, app_assoc. split; [reflexivity | now right].
Qed.

Lemma Serializable_basic_validity_check_reports_enum
    (name : string) (values : list string) (value : string) (self : T)
    (log : list Violation) :
  In (name, values) enum_descriptors ->
  enum_value name self = Some value ->
  mem value values = false ->
  exists extra : list Violation,
    Serializable_basic_validity_check self log = (inr false, self, log ++ extra)
    /\ In (EnumViolationLogged name value) extra.
Proof.
  intros Hin Hvalue Hmem.
  unfold Serializable_basic_validity_check, MethodM.bind.
  destruct (check_required_reports (_required class_schema) true self log)
    as (all_required & extra1 & E1 & _).
  rewrite E1.
  destruct (check_enums_reports_violation enum_descriptors name values value
              self Hin Hvalue Hmem true (log ++ extra1))
    as (extra2 & E2 & Hextra2).
  rewrite E2. unfold MethodM.pure.
  exists (extra1 ++ extra2).
  rewrite andb_false_r, app_assoc.
  split; [reflexivity | apply in_or_app; now right].
Qed.

(** Assignment of a string outside the value set: rejected at once in strict
    mode, with the node left as it was; stored in lenient mode. *)
Lemma assign_enum_outside (set_enum : string -> option string -> T -> T)
    (name : string) (values : list string) (value : string)
    (self : T) (log : list Violation) :
  find (fun d => String.eqb (fst d) name) enum_descriptors = Some (name, values) ->
  mem value values = false ->
  assign_enum set_enum true name (Some value) self log =
    (inl EnumViolation, self, log)
  /\ assign_enum set_enum false name (Some value) self log =
    (inr tt, set_enum name (Some value) self, log).
Proof.
  intros Hfind Hmem.
  unfold assign_enum, StringEnumDescriptor_set.
  rewrite Hfind, Hmem. split; reflexivity.
Qed.

End EnumValidation.

Lemma ImageFormationType_check_fails_with_base
    (self : ImageFormationType.t) (log extra : list Violation) :
  Serializable_basic_validity_check self log = (inr false, self, log ++ extra) ->
  exists extra' : list Violation,
    ImageFormationType._basic_validity_check self log =
    (inr false, self, (log ++ extra) ++ extra').
Proof.
  intros E.
  unfold ImageFormationType._basic_validity_check, MethodM.bind.
  rewrite E. unfold MethodM.getattr.
  destruct (ImageFormationType.TStartProc self) as [lo|];
    [destruct (ImageFormationType.TEndProc self) as [hi|];
     [destruct (PyFloat.ltb hi lo) |] |].
  - eexists. reflexivity.
  - exists []. now rewrite app_nil_r.
  - exists []. now rewrite app_nil_r.
  - exists []. now rewrite app_nil_r.
Qed.

Lemma ImageFormationType_enum_never_silently_accepted
    (name : string) (values : list string) (value : string) :
  In (name, values) ImageFormationType.enums ->
  mem value values = false ->
  never_silently_accepted ImageFormationType.set_enum
    ImageFormationType._basic_validity_check name value.
Proof.
  intros Hin Hmem self log.
  assert (Hfind : find (fun d => String.eqb (fst d) name)
                    (enum_descriptors (T := ImageFormationType.t)) =
                  Some (name, values)).
  { simpl in Hin.
    repeat (destruct Hin as [Hin | Hin];
            [injection Hin as <- <-; reflexivity |]).
    contradiction. }
  assert (Hget : enum_value name
                   (ImageFormationType.set_enum name (Some value) self) =
                 Some value).
  { simpl in Hin.
    repeat (destruct Hin as [Hin | Hin];
            [injection Hin as <- <-; reflexivity |]).
    contradiction. }
  destruct (assign_enum_outside ImageFormationType.set_enum name values value
              self log Hfind Hmem) as [Hstrict Hlenient].
  split; [exact Hstrict |].
  exists (ImageFormationType.set_enum name (Some value) self).
  split; [exact Hlenient |].
  destruct (@Serializable_basic_validity_check_reports_enum
              _ ImageFormationType.serializable name values value
              (ImageFormationType.set_enum name (Some value) self) []
              Hin Hget Hmem) as (extra & E & Hextra).
  destruct (ImageFormationType_check_fails_with_base _ _ _ E) as (extra' & E').
  exists (([] ++ extra) ++ extra').
  split; [exact E' |].
  apply in_or_app. left. exact Hextra.
Qed.

Lemma ProductDisplayType_enum_never_silently_accepted
    (name : string) (values : list string) (value : string) :
  In (name, values) ProductDisplayType.enums ->
  mem value values = false ->
  never_silently_accepted ProductDisplayType.set_enum
    ProductDisplayType._basic_validity_check name value.
Proof.
  intros Hin Hmem self log.
  assert (Hfind : find (fun d => String.eqb (fst d) name)
                    (enum_descriptors (T := ProductDisplayType.t)) =
                  Some (name, values)).
  { simpl in Hin.
    repeat (destruct Hin as [Hin | Hin];
            [injection Hin as <- <-; reflexivity |]).
    contradiction. }
  assert (Hget : enum_value name
                   (ProductDisplayType.set_enum name (Some value) self) =
                 Some value).
  { simpl in Hin.
    repeat (destruct Hin as [Hin | Hin];
            [injection Hin as <- <-; reflexivity |]).
    contradiction. }
  destruct (assign_enum_outside ProductDisplayType.set_enum name values value
              self log Hfind Hmem) as [Hstrict Hlenient].
  split; [exact Hstrict |].
  exists (ProductDisplayType.set_enum name (Some value) self).
  split; [exact Hlenient |].
  destruct (@Serializable_basic_validity_check_reports_enum
              _ ProductDisplayType.serializable name values value
              (ProductDisplayType.set_enum name (Some value) self) []
              Hin Hget Hmem) as (extra & E & Hextra).
  exists ([] ++ extra).
  split; [exact E | exact Hextra].
Qed.

(** C8: for every enumerated-string attribute of [ImageFormationType] and of
    [ProductDisplayType] (among them [TxRcvPolarizationProc] over the dual
    polarization values and [PixelType] over its five values), a string
    outside the declared value set is never silently accepted: assignment in
    strict mode is rejected, and after assignment in lenient mode the
    violation is in the result of validation. *)
Theorem C8_enum_outside_value_set_never_silently_accepted
    (name : string) (values : list string) (value : string) :
  mem value values = false ->
  (In (name, values) ImageFormationType.enums ->
   never_silently_accepted ImageFormationType.set_enum
     ImageFormationType._basic_validity_check name value)
  /\ (In (name, values) ProductDisplayType.enums ->
      never_silently_accepted ProductDisplayType.set_enum
        ProductDisplayType._basic_validity_check name value).
Proof.
  intros Hmem. split; intros Hin.
  - now apply ImageFormationType_enum_never_silently_accepted with values.
  - now apply ProductDisplayType_enum_never_silently_accepted with values.
Qed.

(** The polarization "X:Y" and the pixel type "MONO32F" are in no value set. *)
Lemma C8_enum_outside_value_set_witness :
  never_silently_accepted ImageFormationType.set_enum
    ImageFormationType._basic_validity_check "TxRcvPolarizationProc" "X:Y"
  /\ never_silently_accepted ProductDisplayType.set_enum
       ProductDisplayType._basic_validity_check "PixelType" "MONO32F".
Proof.
  split.
  - apply (proj1 (C8_enum_outside_value_set_never_silently_accepted
                    "TxRcvPolarizationProc"
                    ImageFormationType._DUAL_POLARIZATION_VALUES "X:Y"
                    eq_refl)).
    simpl. now left.
  - apply (proj2 (C8_enum_outside_value_set_never_silently_accepted
                    "PixelType" ProductDisplayType.PIXEL_TYPE_VALUES "MONO32F"
                    eq_refl)).
    simpl. now left.
Defined.

(** ** Strings: fields, split and join *)

Lemma all_chars_app (p : ascii -> bool) (a b : string) :
  all_chars p (a ++ b)%string = all_chars p a && all_chars p b.
Proof.
  induction a as [|c a IH]; simpl; [reflexivity |].
  now rewrite IH, andb_assoc.
Qed.

Lemma all_chars_weaken (p q : ascii -> bool) (s : string) :
  (forall c, p c = true -> q c = true) ->
  all_chars p s = true -> all_chars q s = true.
Proof.
  intros Hpq. induction s as [|c s IH]; simpl; [trivial |].
  intros H. apply andb_true_iff in H as [Hc Hs].
  apply andb_true_iff. split; [now apply Hpq | now apply IH].
Qed.

Lemma append_empty_r (s : string) : (s ++ "")%string = s.
Proof. induction s as [|c s IH]; simpl; [reflexivity | now rewrite IH]. Qed.

Lemma fields_not_nil (sep : ascii -> bool) (s : string) :
  PyStr.fields sep s <> [].
Proof.
  destruct s as [|c s]; simpl; [discriminate |].
  destruct (sep c); [discriminate |].
  destruct (PyStr.fields sep s); discriminate.
Qed.

(** A prefix without separators stays in front of the first field of what
    follows. *)
Lemma fields_app_no_sep (sep : ascii -> bool) (a s : string) :
  all_chars (fun c => negb (sep c)) a = true ->
  PyStr.fields sep (a ++ s)%string =
  (a ++ hd EmptyString (PyStr.fields sep s))%string :: tl (PyStr.fields sep s).
Proof.
  induction a as [|c a IH]; simpl; intros Ha.
  - pose proof (fields_not_nil sep s) as Hnil.
    destruct (PyStr.fields sep s); [contradiction | reflexivity].
  - apply andb_true_iff in Ha as [Hc Ha].
    apply negb_true_iff in Hc. rewrite Hc.
    rewrite (IH Ha). reflexivity.
Qed.

Lemma fields_no_sep (sep : ascii -> bool) (a : string) :
  all_chars (fun c => negb (sep c)) a = true ->
  PyStr.fields sep a = [a].
Proof.
  intros Ha.
  rewrite <- (append_empty_r a) at 1.
  rewrite (fields_app_no_sep sep a "" Ha). simpl.
  now rewrite append_empty_r.
Qed.

(** More than one field: the string holds a separator. *)
Lemma fields_two_has_sep (sep : ascii -> bool) (s : string) :
  (2 <= List.length (PyStr.fields sep s))%nat ->
  all_chars (fun c => negb (sep c)) s = false.
Proof.
  induction s as [|c s IH]; simpl; intros Hlen.
  - lia.
  - destruct (sep c) eqn:Hc; simpl; [reflexivity |].
    apply IH.
    destruct (PyStr.fields sep s); simpl in *; lia.
Qed.

(** A first entry without whitespace, followed by nothing or by a space and
    more text, is the first string of [split]. *)
Lemma split_first_entry (entry rest : string) :
  entry <> EmptyString ->
  all_chars (fun c => negb (PyStr.isspace c)) entry = true ->
  PyStr.split entry = [entry]
  /\ PyStr.split (entry ++ " " ++ rest)%string = entry :: PyStr.split rest.
Proof.
  intros Hne Hentry.
  assert (Hkeep : negb (String.eqb entry EmptyString) = true).
  { apply negb_true_iff. apply String.eqb_neq. exact Hne. }
  unfold PyStr.split. split.
  - rewrite (fields_no_sep _ entry Hentry). simpl. now rewrite Hkeep.
  - rewrite (fields_app_no_sep _ entry _ Hentry).
    change (PyStr.fields PyStr.isspace (" " ++ rest)%string)
      with (EmptyString :: PyStr.fields PyStr.isspace rest).
    cbn [hd tl]. rewrite append_empty_r.
    cbn [filter]. now rewrite Hkeep.
Qed.

(** ** Decimal numerals *)

Lemma string_of_uint_numeral (u : Decimal.uint) :
  all_chars numeral_char (NilEmpty.string_of_uint u) = true.
Proof. induction u; simpl; trivial. Qed.

Lemma format_d_numeral (z : Z) : all_chars numeral_char (PyStr.format_d z) = true.
Proof.
  unfold PyStr.format_d.
  destruct (Z.to_int z) as [u|u]; simpl; apply string_of_uint_numeral.
Qed.

Lemma numeral_char_not_space (c : ascii) :
  numeral_char c = true -> negb (PyStr.isspace c) = true.
Proof.
  destruct c as [[] [] [] [] [] [] [] []]; cbv; intros H;
    first [reflexivity | discriminate H].
Qed.

Lemma numeral_char_not_comma (c : ascii) :
  numeral_char c = true -> negb (Ascii.eqb "," c) = true.
Proof.
  destruct c as [[] [] [] [] [] [] [] []]; cbv; intros H;
    first [reflexivity | discriminate H].
Qed.

(** ** Deserialization of [ColorDisplayRemapType] *)

Lemma int_raises_ValueError (text : string) (e : exception) :
  PyStr.int text = inl e -> e = ValueError.
Proof.
  unfold PyStr.int, ret, raise.
  match goal with
  | |- match ?parsed with _ => _ end = _ -> _ => destruct parsed
  end; intros H; [discriminate H | now injection H].
Qed.

Lemma mapM_raises {A B : Type} (f : A -> result B) (E : exception) (l : list A) :
  (forall a e, f a = inl e -> e = E) ->
  (exists a, In a l /\ is_error (f a) = true) ->
  mapM f l = inl E.
Proof.
  intros Honly (a & Hin & Herr).
  induction l as [|x l IH]; [contradiction |].
  simpl. destruct (f x) as [e|b] eqn:Ex.
  - now rewrite (Honly x e Ex).
  - destruct Hin as [-> | Hin].
    + rewrite Ex in Herr. discriminate Herr.
    + now rewrite (IH Hin).
Qed.

Lemma all_chars_false_exists (p : ascii -> bool) (s : string) :
  all_chars p s = false ->
  exists c, In c (list_ascii_of_string s) /\ p c = false.
Proof.
  induction s as [|c s IH]; simpl; [discriminate |].
  destruct (p c) eqn:Hc; simpl.
  - intros H. destruct (IH H) as (c' & Hin & Hc').
    exists c'. split; [now right | exact Hc'].
  - intros _. exists c. split; [now left | exact Hc].
Qed.

(** The comprehension of [from_node] runs over the characters of the entry,
    commas included: on an entry of three comma-separated tokens it raises
    [ValueError]. *)
Lemma int_of_each_raises_on_row (entry : string) :
  List.length (PyStr.split_char "," entry) = 3%nat ->
  ColorDisplayRemapType.int_of_each entry = inl ValueError.
Proof.
  intros Hlen.
  assert (Hcomma : all_chars (fun c => negb (Ascii.eqb "," c)) entry = false).
  { apply fields_two_has_sep. unfold PyStr.split_char in Hlen. lia. }
  apply all_chars_false_exists in Hcomma as (c & Hin & Hc).
  apply negb_false_iff, Ascii.eqb_eq in Hc. subst c.
  apply mapM_raises.
  - intros a e. apply int_raises_ValueError.
  - exists ","%char. split; [exact Hin | reflexivity].
Qed.

(** The loop of [from_node] stops with a [ValueError] at a first entry of
    three tokens: the table and the row counter are as before, and nothing
    is logged. *)
Lemma for_entries_raises_on_first_row (entry : string) (rest : list string)
    (vars : ColorDisplayRemapType.locals) (log : list Violation) :
  List.length (PyStr.split_char "," entry) = 3%nat ->
  ColorDisplayRemapType.for_entries (entry :: rest) vars log =
  (inl ValueError, vars, log).
Proof.
  intros Hlen.
  assert (Hne : (String.length entry =? 0)%nat = false).
  { destruct entry; [discriminate Hlen | reflexivity]. }
  cbn [ColorDisplayRemapType.for_entries].
  rewrite Hne, Hlen. cbn [Nat.eqb negb].
  unfold MethodM.bind at 1. unfold MethodM.lift.
  now rewrite (int_of_each_raises_on_row entry Hlen).
Qed.


(** [from_node] on an element whose first entry has three tokens raises
    [ValueError], whatever the [size] attribute says. *)
Lemma from_node_raises_on_first_row {S : Type} (tag size text : string)
    (entry : string) (rest : list string) (caller : S) (log : list Violation) :
  PyStr.split text = entry :: rest ->
  List.length (PyStr.split_char "," entry) = 3%nat ->
  ColorDisplayRemapType.from_node (lut_element tag size text) None caller log =
  (inl ValueError, caller, log).
Proof.
  intros Hsplit Hlen.
  unfold ColorDisplayRemapType.from_node, lut_element.
  unfold MethodM.bind at 1. unfold MethodM.lift at 1.
  cbn [ElementTree.find_tag ElementTree.children ElementTree.tag find
       String.eqb Ascii.eqb Bool.eqb ret].
  unfold MethodM.bind at 1. unfold MethodM.lift at 1.
  cbn [ElementTree.getitem ElementTree.lookup ElementTree.attrib
       String.eqb Ascii.eqb Bool.eqb ret].
  unfold MethodM.bind at 1. unfold MethodM.lift at 1.
  unfold int_func.
  destruct (PyStr.int size) as [e|dim1] eqn:Esize.
  { now rewrite (int_raises_ValueError size e Esize). }
  unfold MethodM.bind at 1. unfold MethodM.lift at 1.
  unfold numpy.zeros2.
  destruct (dim1 <? 0)%Z; [reflexivity |].
  unfold ret at 1.
  unfold MethodM.bind at 1. unfold MethodM.lift at 1.
  cbn [_get_node_value ElementTree.text ret].
  rewrite Hsplit.
  unfold MethodM.bind at 1. unfold MethodM.block.
  now rewrite (for_entries_raises_on_first_row entry rest _ log Hlen).
Qed.

(** C2: on the text "1,2,3 4,5", deserialization should keep the row
    (1, 2, 3), skip and report the entry "4,5", and return a table.  The
    source converts the characters of the entry "1,2,3", not its three
    tokens, so the comma raises [ValueError] in the first, well-formed entry:
    [from_node] aborts, whatever the [size] attribute is, before the
    malformed entry is looked at, and nothing is reported. *)
Theorem C2_from_node_aborts_on_well_formed_row (tag size : string) :
  PyStr.split "1,2,3 4,5" = ["1,2,3"; "4,5"]
  /\ PyStr.split_char "," "1,2,3" = ["1"; "2"; "3"]
  /\ ColorDisplayRemapType.int_of_each "1,2,3" = inl ValueError
  /\ ColorDisplayRemapType.from_node
       (lut_element tag size "1,2,3 4,5") None tt [] =
     (inl ValueError, tt, []).
Proof.
  repeat split.
  now apply from_node_raises_on_first_row with "1,2,3" ["4,5"].
Qed.

(** ** Serialization of [ColorDisplayRemapType] *)

(** A row of three entries is formatted as an entry of three tokens without
    whitespace. *)
Lemma format_entry_row (r g b : Z) (more : list Z) :
  exists entry : string,
    ColorDisplayRemapType.format_entry (r :: g :: b :: more) = inr entry
    /\ entry <> EmptyString
    /\ all_chars (fun c => negb (PyStr.isspace c)) entry = true
    /\ List.length (PyStr.split_char "," entry) = 3%nat.
Proof.
  eexists. split; [reflexivity |].
  pose proof (format_d_numeral r) as Hr.
  pose proof (format_d_numeral g) as Hg.
  pose proof (format_d_numeral b) as Hb.
  split; [| split].
  - destruct (PyStr.format_d r); discriminate.
  - rewrite !all_chars_app.
    rewrite (all_chars_weaken _ _ _ numeral_char_not_space Hr).
    rewrite (all_chars_weaken _ _ _ numeral_char_not_space Hg).
    rewrite (all_chars_weaken _ _ _ numeral_char_not_space Hb).
    reflexivity.
  - unfold PyStr.split_char.
    pose proof (all_chars_weaken _ _ _ numeral_char_not_comma Hr) as Hr'.
    pose proof (all_chars_weaken _ _ _ numeral_char_not_comma Hg) as Hg'.
    pose proof (all_chars_weaken _ _ _ numeral_char_not_comma Hb) as Hb'.
    rewrite (fields_app_no_sep _ _ _ Hr').
    change (PyStr.fields (Ascii.eqb ",")
              ("," ++ PyStr.format_d g ++ "," ++ PyStr.format_d b)%string)
      with (EmptyString
            :: PyStr.fields (Ascii.eqb ",")
                 (PyStr.format_d g ++ "," ++ PyStr.format_d b)%string).
    cbn [hd tl].
    rewrite (fields_app_no_sep _ _ _ Hg').
    change (PyStr.fields (Ascii.eqb ",") ("," ++ PyStr.format_d b)%string)
      with (EmptyString :: PyStr.fields (Ascii.eqb ",") (PyStr.format_d b)).
    cbn [hd tl].
    rewrite (fields_no_sep _ _ Hb').
    reflexivity.
Qed.

Lemma mapM_format_entry_rows (nrows : nat) :
  forall entries : list Z,
    List.length entries = (nrows * 3)%nat ->
    exists formatted : list string,
      mapM ColorDisplayRemapType.format_entry (numpy.rows nrows 3 entries) =
      inr formatted.
Proof.
  induction nrows as [|n IH]; intros entries Hlen.
  - exists []. reflexivity.
  - destruct entries as [|r [|g [|b rest]]]; simpl in Hlen; try lia.
    destruct (IH rest ltac:(lia)) as (formatted & E).
    destruct (format_entry_row r g b []) as (entry & Eentry & _).
    exists (entry :: formatted).
    cbn [numpy.rows firstn skipn mapM].
    rewrite Eentry, E. reflexivity.
Qed.

(** [to_node] on a node that holds an N by 3 table, N positive: the element
    it returns, and the first entry of its text. *)
Lemma to_node_first_entry (lut : numpy.ndarray) (n : nat) (tag : string) :
  numpy.shape lut = [S n; 3]%nat ->
  List.length (numpy.data lut) = (S n * 3)%nat ->
  exists (text entry : string) (rest : list string),
    ColorDisplayRemapType.to_node tag
      {| ColorDisplayRemapType._remap_lut := Some lut |} =
    inr (lut_element tag (PyStr.format_d (Z.of_nat (S n))) text)
    /\ PyStr.split text = entry :: rest
    /\ List.length (PyStr.split_char "," entry) = 3%nat.
Proof.
  intros Hshape Hlen.
  unfold ColorDisplayRemapType.to_node, ColorDisplayRemapType.size,
    numpy.iter_rows, numpy.shape_at.
  cbn [ColorDisplayRemapType._remap_lut].
  rewrite Hshape. cbn [nth_error bind ret].
  destruct (numpy.data lut) as [|r [|g [|b more]]]; simpl in Hlen; try lia.
  destruct (mapM_format_entry_rows n more ltac:(lia)) as (formatted & E).
  destruct (format_entry_row r g b []) as (entry & Eentry & Hne & Hspace & Htokens).
  cbn [numpy.rows firstn skipn mapM].
  rewrite Eentry, E.
  destruct formatted as [|second others].
  - exists entry, entry, [].
    split; [reflexivity |].
    split; [apply (split_first_entry entry EmptyString Hne Hspace) | exact Htokens].
  - exists (entry ++ " " ++ PyStr.join " " (second :: others))%string, entry,
      (PyStr.split (PyStr.join " " (second :: others))).
    split; [reflexivity |].
    split; [apply (split_first_entry entry _ Hne Hspace) | exact Htokens].
Qed.

(** C3: deserializing the element that serialization makes for a node with
    an N by 3 table should give the table back.  [to_node] succeeds, but
    [from_node] raises on what it wrote: for a table with rows, the first
    entry "r,g,b" is converted character by character and its comma raises
    [ValueError]; for the table without rows, the maximum of an empty array
    is taken, which raises [ValueError] as well. *)
Theorem C3_from_node_raises_on_to_node_output
    (lut : numpy.ndarray) (nrows : nat) (tag : string) :
  numpy.shape lut = [nrows; 3]%nat ->
  List.length (numpy.data lut) = (nrows * 3)%nat ->
  exists element : ElementTree.Element,
    ColorDisplayRemapType.to_node tag
      {| ColorDisplayRemapType._remap_lut := Some lut |} = inr element
    /\ ColorDisplayRemapType.from_node element None tt [] =
       (inl ValueError, tt, []).
Proof.
  intros Hshape Hlen.
  destruct nrows as [|n].
  - destruct lut as [dtype_name shape data]; simpl in *. subst shape.
    destruct data; [| discriminate Hlen].
    eexists. split; reflexivity.
  - destruct (to_node_first_entry lut n tag Hshape Hlen)
      as (text & entry & rest & Eto & Hsplit & Htokens).
    eexists. split; [exact Eto |].
    now apply from_node_raises_on_first_row with entry rest.
Qed.

(** The table with the two rows (1, 2, 3) and (40, 50, 60): it is written
    as "1,2,3 40,50,60" and reading that back raises. *)
Lemma C3_from_node_raises_witness :
  let lut := {| numpy.dtype_name := "uint8";
                numpy.shape := [2; 3]%nat;
                numpy.data := [1; 2; 3; 40; 50; 60] |} in
  ColorDisplayRemapType.to_node "ColorDisplayRemap"
    {| ColorDisplayRemapType._remap_lut := Some lut |} =
    inr (lut_element "ColorDisplayRemap" "2" "1,2,3 40,50,60")
  /\ exists element : ElementTree.Element,
      ColorDisplayRemapType.to_node "ColorDisplayRemap"
        {| ColorDisplayRemapType._remap_lut := Some lut |} = inr element
      /\ ColorDisplayRemapType.from_node element None tt [] =
         (inl ValueError, tt, []).
Proof.
  intros lut. split; [reflexivity |].
  apply (C3_from_node_raises_on_to_node_output lut 2 "ColorDisplayRemap");
    reflexivity.
Defined.

(* ================================================================== *)
(** * Further properties of the source files                           *)
(* ================================================================== *)

(** ** Validity checks *)

(** X1: with [MinProc] and [MaxProc] both present, the check of a
    [TxFrequencyProcType] node reports exactly one cross-field violation,
    for the pair of bounds, and returns [False] when [MaxProc < MinProc]; it
    reports none when [MinProc <= MaxProc]. *)
Theorem X1_frequency_bounds_cross_field_violation
    (self : TxFrequencyProcType.t) (log : list Violation)
    (lo hi : PyFloat.t) :
  TxFrequencyProcType.MinProc self = Some lo ->
  TxFrequencyProcType.MaxProc self = Some hi ->
  let r := TxFrequencyProcType._basic_validity_check self log in
  (PyFloat.ltb hi lo = true ->
   MethodM.value r = inr false
   /\ filter is_cross_field (MethodM.logged r) =
      filter is_cross_field log
      ++ [CrossFieldViolation "MinProc <= MaxProc" lo hi])
  /\ (PyFloat.leb lo hi = true ->
      filter is_cross_field (MethodM.logged r) = filter is_cross_field log).
Proof.
  intros Hlo Hhi r.
  destruct (Serializable_basic_validity_check_reports
              (T := TxFrequencyProcType.t) self log)
    as (condition & extra & E & Hextra).
  assert (Er : r =
               if PyFloat.ltb hi lo
               then (inr false, self,
                     (log ++ extra)
                     ++ [CrossFieldViolation "MinProc <= MaxProc" lo hi])
               else (inr condition, self, log ++ extra)).
  { subst r. unfold TxFrequencyProcType._basic_validity_check, MethodM.bind.
    rewrite E. unfold MethodM.getattr. rewrite Hlo, Hhi.
    destruct (PyFloat.ltb hi lo); reflexivity. }
  rewrite Er. clear Er r.
  split.
  - intros Hlt. rewrite Hlt.
    unfold MethodM.value, MethodM.logged. cbn [fst snd].
    split; [reflexivity |].
    rewrite filter_app, filter_cross_field_extra by assumption.
    reflexivity.
  - intros Hle. rewrite (PyFloat_leb_not_ltb _ _ Hle).
    unfold MethodM.logged. cbn [fst snd].
    apply filter_cross_field_extra; assumption.
Qed.

Lemma X1_frequency_bounds_witness :
  let node (lo hi : PyFloat.t) :=
    TxFrequencyProcType.__init__ (Some lo) (Some hi) in
  (MethodM.value
     (TxFrequencyProcType._basic_validity_check (node 9e9%float 8e9%float) []) =
   inr false
   /\ filter is_cross_field
        (MethodM.logged
           (TxFrequencyProcType._basic_validity_check
              (node 9e9%float 8e9%float) [])) =
      [] ++ [CrossFieldViolation "MinProc <= MaxProc" 9e9%float 8e9%float])
  /\ filter is_cross_field
       (MethodM.logged
          (TxFrequencyProcType._basic_validity_check
             (node 8e9%float 9e9%float) [])) = [].
Proof.
  intros node. split.
  - apply (proj1 (X1_frequency_bounds_cross_field_violation
                    (node 9e9%float 8e9%float) [] 9e9%float 8e9%float
                    eq_refl eq_refl)).
    reflexivity.
  - apply (proj2 (X1_frequency_bounds_cross_field_violation
                    (node 8e9%float 9e9%float) [] 8e9%float 9e9%float
                    eq_refl eq_refl)).
    reflexivity.
Defined.

(** No comparison with a NaN holds. *)
Lemma SFcompare_refl_not_nan (x : spec_float) :
  x <> S754_nan -> SFcompare x x = Some Eq.
Proof.
  destruct x as [sx|sx| |sx mx ex]; simpl; intros Hx.
  - reflexivity.
  - now destruct sx.
  - contradiction.
  - destruct sx; rewrite Z.compare_refl;
      change (Pos.compare_cont Eq mx mx) with (Pos.compare mx mx);
      now rewrite Pos.compare_refl.
Qed.

Lemma isnan_Prim2SF (x : PyFloat.t) :
  isnan x = true -> Prim2SF x = S754_nan.
Proof.
  unfold isnan, PrimFloat.is_nan.
  rewrite eqb_spec. unfold SFeqb. intros Hx.
  destruct (Prim2SF x) as [sx|sx| |sx mx ex] eqn:E; [| | reflexivity |];
    rewrite SFcompare_refl_not_nan in Hx by discriminate; discriminate Hx.
Qed.

Lemma isnan_not_ltb (x y : PyFloat.t) :
  isnan x = true \/ isnan y = true -> PyFloat.ltb x y = false.
Proof.
  unfold PyFloat.ltb. rewrite ltb_spec. unfold SFltb.
  intros [Hx | Hy].
  - now rewrite (isnan_Prim2SF x Hx).
  - rewrite (isnan_Prim2SF y Hy). now destruct (Prim2SF x).
Qed.

(** X2: when a bound is absent or is a NaN, the check of the class adds
    nothing to the inherited one: no cross-field violation is reported and
    the verdict is the inherited verdict.  So a NaN start time, end time or
    frequency passes validation unnoticed. *)
Theorem X2_absent_or_nan_bound_passes_unnoticed
    (frequencies : TxFrequencyProcType.t) (image_formation : ImageFormationType.t)
    (log : list Violation) :
  (absent_or_nan (TxFrequencyProcType.MinProc frequencies) = true
   \/ absent_or_nan (TxFrequencyProcType.MaxProc frequencies) = true ->
   TxFrequencyProcType._basic_validity_check frequencies log =
   Serializable_basic_validity_check frequencies log)
  /\ (absent_or_nan (ImageFormationType.TStartProc image_formation) = true
      \/ absent_or_nan (ImageFormationType.TEndProc image_formation) = true ->
      ImageFormationType._basic_validity_check image_formation log =
      Serializable_basic_validity_check image_formation log).
Proof.
  split; intros Hbound.
  - unfold TxFrequencyProcType._basic_validity_check, MethodM.bind.
    destruct (Serializable_basic_validity_check_reports
                (T := TxFrequencyProcType.t) frequencies log)
      as (condition & extra & E & _).
    rewrite E. unfold MethodM.getattr, MethodM.pure.
    destruct (TxFrequencyProcType.MinProc frequencies) as [lo|];
      destruct (TxFrequencyProcType.MaxProc frequencies) as [hi|];
      try reflexivity.
    rewrite (isnan_not_ltb hi lo); [reflexivity |].
    simpl in Hbound. tauto.
  - unfold ImageFormationType._basic_validity_check, MethodM.bind.
    destruct (Serializable_basic_validity_check_reports
                (T := ImageFormationType.t) image_formation log)
      as (condition & extra & E & _).
    rewrite E. unfold MethodM.getattr, MethodM.pure.
    destruct (ImageFormationType.TStartProc image_formation) as [lo|];
      destruct (ImageFormationType.TEndProc image_formation) as [hi|];
      try reflexivity.
    rewrite (isnan_not_ltb hi lo); [reflexivity |].
    simpl in Hbound. tauto.
Qed.

(** A range of frequencies from NaN to 1.0 and a node with a start time of
    5.0 and no end time: both checks are the inherited check. *)
Lemma X2_absent_or_nan_bound_witness :
  let frequencies := TxFrequencyProcType.__init__ (Some nan) (Some 1%float) in
  let image_formation :=
    {| ImageFormationType.RcvChanProc := None;
       ImageFormationType.TxRcvPolarizationProc := None;
       ImageFormationType.TStartProc := Some 5%float;
       ImageFormationType.TEndProc := None;
       ImageFormationType.TxFrequencyProc := None;
       ImageFormationType.SegmentIdentifier := None;
       ImageFormationType.ImageFormAlgo := None;
       ImageFormationType.STBeamComp := None;
       ImageFormationType.ImageBeamComp := None;
       ImageFormationType.AzAutofocus := None;
       ImageFormationType.RgAutofocus := None;
       ImageFormationType.Processings := None;
       ImageFormationType.PolarizationCalibration := None |} in
  TxFrequencyProcType._basic_validity_check frequencies [] =
    Serializable_basic_validity_check frequencies []
  /\ ImageFormationType._basic_validity_check image_formation [] =
    Serializable_basic_validity_check image_formation [].
Proof.
  intros frequencies image_formation. split.
  - apply (proj1 (X2_absent_or_nan_bound_passes_unnoticed
                    frequencies image_formation [])).
    left. reflexivity.
  - apply (proj2 (X2_absent_or_nan_bound_passes_unnoticed
                    frequencies image_formation [])).
    right. reflexivity.
Defined.

(** ** The derivation hook, for every sibling and every node *)

Lemma derive_tx_frequency_proc_cases
    (RadarCollection : option RadarCollectionType.t)
    (self : ImageFormationType.t) (log : list Violation) :
  ImageFormationType._derive_tx_frequency_proc RadarCollection self log =
  match sibling_bounds RadarCollection, ImageFormationType.TxFrequencyProc self with
  | None, _ => (inr tt, self, log)
  | Some (fmin, fmax), Some _ =>
      (inr tt,
       ImageFormationType.set_TxFrequencyProc
         (Some (TxFrequencyProcType.__init__ (Some fmin) (Some fmax))) self,
       log)
  | Some _, None => (inl AttributeError, self, log)
  end.
Proof.
  destruct RadarCollection as [[[[[fmin|] [fmax|]]|]]|]; try reflexivity.
  apply derive_tx_frequency_proc_spec.
Qed.

(** X3: when the sibling record is [None], or has no [TxFrequency], or its
    [TxFrequency] lacks [Min] or [Max], the hook does nothing: it returns,
    the node is as it was, and nothing is logged. *)
Theorem X3_derive_does_nothing_without_sibling_bounds
    (RadarCollection : option RadarCollectionType.t)
    (self : ImageFormationType.t) (log : list Violation) :
  sibling_bounds RadarCollection = None ->
  ImageFormationType._derive_tx_frequency_proc RadarCollection self log =
  (inr tt, self, log).
Proof.
  intros Hnone. rewrite derive_tx_frequency_proc_cases. now rewrite Hnone.
Qed.

(** A sibling whose range of frequencies has a lower bound only. *)
Lemma X3_derive_does_nothing_witness :
  let RadarCollection :=
    Some {| RadarCollectionType.TxFrequency :=
              Some {| RadarCollectionType.Min := Some 10%float;
                      RadarCollectionType.Max := None |} |} in
  ImageFormationType._derive_tx_frequency_proc RadarCollection
    empty_ImageFormation [] =
  (inr tt, empty_ImageFormation, []).
Proof.
  intros RadarCollection.
  apply (X3_derive_does_nothing_without_sibling_bounds RadarCollection
           empty_ImageFormation []).
  reflexivity.
Defined.

(** X4: the hook touches [TxFrequencyProc] and nothing else: putting the
    old [TxFrequencyProc] back gives the node as it was; it logs nothing;
    the only exception it raises is [AttributeError], and then the node is
    unchanged; and the [TxFrequencyProc] it leaves is the old one or the
    pair of the sibling's bounds, never a mix of a bound of the node and a
    bound of the sibling. *)
Theorem X4_derive_changes_TxFrequencyProc_only
    (RadarCollection : option RadarCollectionType.t)
    (self : ImageFormationType.t) (log : list Violation) :
  let r := ImageFormationType._derive_tx_frequency_proc RadarCollection self log in
  let after := MethodM.object r in
  ImageFormationType.set_TxFrequencyProc
    (ImageFormationType.TxFrequencyProc self) after = self
  /\ MethodM.logged r = log
  /\ (MethodM.value r = inr tt
      \/ MethodM.value r = inl AttributeError /\ after = self)
  /\ (ImageFormationType.TxFrequencyProc after =
        ImageFormationType.TxFrequencyProc self
      \/ exists fmin fmax,
          sibling_bounds RadarCollection = Some (fmin, fmax)
          /\ ImageFormationType.TxFrequencyProc after =
             Some (TxFrequencyProcType.__init__ (Some fmin) (Some fmax))).
Proof.
  intros r after. subst after r.
  rewrite derive_tx_frequency_proc_cases.
  destruct self; cbn [ImageFormationType.TxFrequencyProc].
  destruct (sibling_bounds RadarCollection) as [[fmin fmax]|];
    [destruct TxFrequencyProc as [tfp|] |];
    unfold MethodM.object, MethodM.logged, MethodM.value; cbn;
    repeat split; try (left; reflexivity); try (right; split; reflexivity).
  right. exists fmin, fmax. split; reflexivity.
Qed.

(** X5: the hook is idempotent: when it returns, running it again with the
    same sibling returns as well and changes nothing more. *)
Theorem X5_derive_idempotent
    (RadarCollection : option RadarCollectionType.t)
    (self : ImageFormationType.t) (log : list Violation) :
  let r := ImageFormationType._derive_tx_frequency_proc RadarCollection self log in
  MethodM.value r = inr tt ->
  ImageFormationType._derive_tx_frequency_proc RadarCollection
    (MethodM.object r) log = r.
Proof.
  intros r. subst r.
  rewrite !derive_tx_frequency_proc_cases.
  destruct (sibling_bounds RadarCollection) as [[fmin fmax]|];
    [destruct (ImageFormationType.TxFrequencyProc self) as [tfp|] eqn:E |];
    unfold MethodM.object, MethodM.value; cbn [fst snd]; intros Hok.
  - reflexivity.
  - discriminate Hok.
  - reflexivity.
Qed.

Lemma X5_derive_idempotent_witness :
  let self :=
    ImageFormationType.set_TxFrequencyProc
      (Some (TxFrequencyProcType.__init__ (Some 1%float) (Some 2%float)))
      empty_ImageFormation in
  let r := ImageFormationType._derive_tx_frequency_proc sibling_10_20 self [] in
  ImageFormationType._derive_tx_frequency_proc sibling_10_20
    (MethodM.object r) [] = r.
Proof.
  intros self r.
  apply (X5_derive_idempotent sibling_10_20 self []).
  reflexivity.
Defined.

(** ** The reference-frequency shift of [ImageFormationType] *)

(** X6: the shift of an [ImageFormationType] node returns, logs nothing and
    touches [TxFrequencyProc] only: putting the old [TxFrequencyProc] back
    gives the node as it was, and a node without [TxFrequencyProc] is left
    as it is. *)
Theorem X6_apply_reference_frequency_changes_TxFrequencyProc_only
    (reference_frequency : PyFloat.t) (self : ImageFormationType.t)
    (log : list Violation) :
  let r := ImageFormationType._apply_reference_frequency
             reference_frequency self log in
  MethodM.value r = inr tt
  /\ MethodM.logged r = log
  /\ ImageFormationType.set_TxFrequencyProc
       (ImageFormationType.TxFrequencyProc self) (MethodM.object r) = self
  /\ (ImageFormationType.TxFrequencyProc self = None -> MethodM.object r = self).
Proof.
  intros r. subst r.
  rewrite ImageFormationType_apply_reference_frequency_spec.
  unfold MethodM.value, MethodM.logged. unfold MethodM.object at 1 3.
  cbn [fst snd].
  destruct self; cbn [ImageFormationType.TxFrequencyProc].
  destruct TxFrequencyProc as [tfp|]; repeat split; try discriminate.
Qed.

(** ** The class tables *)

(** X7: in every record type of the sources each required name is a
    declared field; each key of a numeric format table is a declared field
    too, except in [ImageFormationType]: its table gives a format for
    [EndProc], which is no field, and none for [TEndProc]. *)
Theorem X7_required_names_and_numeric_format_keys :
  forallb (fun entry => required_wf (snd entry)) record_schemas = true
  /\ forallb (fun entry => numeric_format_wf (snd entry)
                           || String.eqb (fst entry) "ImageFormationType")
       record_schemas = true
  /\ numeric_format_wf ImageFormationType.schema = false
  /\ mem "EndProc" (map fst (_numeric_format ImageFormationType.schema)) = true
  /\ mem "EndProc" (_fields ImageFormationType.schema) = false
  /\ mem "TEndProc" (map fst (_numeric_format ImageFormationType.schema)) = false.
Proof. repeat split. Qed.

(** ** Assignment to [ColorDisplayRemapType.RemapLUT] *)

Lemma RemapLUT_setter_array (a : numpy.ndarray)
    (self : ColorDisplayRemapType.t) (log : list Violation) :
  ColorDisplayRemapType.RemapLUT_setter (PyArray a) self log =
  if mem (numpy.dtype_name a) ["uint8"; "uint16"] then
    match numpy.shape a with
    | [_; _] => (inr tt, {| ColorDisplayRemapType._remap_lut := Some a |}, log)
    | _ :: dim2 :: _ =>
        if (dim2 =? 3)%nat
        then (inr tt, {| ColorDisplayRemapType._remap_lut := Some a |}, log)
        else (inl ValueError, self, log)
    | _ => (inl IndexError, self, log)
    end
  else (inl ValueError, self, log).
Proof.
  destruct (mem (numpy.dtype_name a) ["uint8"; "uint16"]) eqn:Hdtype.
  - now apply RemapLUT_setter_by_shape.
  - unfold ColorDisplayRemapType.RemapLUT_setter, MethodM.bind, MethodM.pure.
    cbv beta iota. now rewrite Hdtype.
Qed.

Lemma RemapLUT_setter_array_outcome (a : numpy.ndarray)
    (self : ColorDisplayRemapType.t) (log : list Violation) :
  let r := ColorDisplayRemapType.RemapLUT_setter (PyArray a) self log in
  MethodM.logged r = log
  /\ match MethodM.value r with
     | inl e => MethodM.object r = self /\ (e = ValueError \/ e = IndexError)
     | inr _ =>
         MethodM.object r = {| ColorDisplayRemapType._remap_lut := Some a |}
         /\ color_lut_kept a
     end.
Proof.
  intros r. subst r. rewrite RemapLUT_setter_array.
  unfold color_lut_kept.
  destruct (mem (numpy.dtype_name a) ["uint8"; "uint16"]);
    [| cbn; auto].
  destruct (numpy.shape a) as [|d1 [|d2 [|d3 rest]]]; cbn; auto.
  destruct (d2 =? 3)%nat eqn:Hd2; cbn; auto.
  apply Nat.eqb_eq in Hd2. auto.
Qed.

(** X8: an assignment to [RemapLUT] logs nothing; when it raises, the table
    the node held is still there; when it returns, the node holds [None]
    (after the assignment of [None]) or an array of dtype uint8 or uint16
    that has rank 2 or a second dimension of 3.  An object that is no array,
    list or tuple, and an array of another dtype, raise [ValueError]. *)
Theorem X8_RemapLUT_assignment_outcomes
    (value : PyValue) (self : ColorDisplayRemapType.t) (log : list Violation) :
  let r := ColorDisplayRemapType.RemapLUT_setter value self log in
  MethodM.logged r = log
  /\ match MethodM.value r with
     | inl _ => MethodM.object r = self
     | inr _ =>
         match ColorDisplayRemapType._remap_lut (MethodM.object r) with
         | None => value = PyNone
         | Some a => color_lut_kept a
         end
     end
  /\ (value = PyOther -> MethodM.value r = inl ValueError)
  /\ (forall a, value = PyArray a ->
      mem (numpy.dtype_name a) ["uint8"; "uint16"] = false ->
      MethodM.value r = inl ValueError).
Proof.
  intros r. subst r.
  destruct value as [|[e|a]|a|].
  - cbn. repeat split; intros; discriminate.
  - cbn. repeat split; intros; discriminate.
  - change (ColorDisplayRemapType.RemapLUT_setter (PySequence (inr a)) self log)
      with (ColorDisplayRemapType.RemapLUT_setter (PyArray a) self log).
    destruct (RemapLUT_setter_array_outcome a self log) as [Hlog Hvalue].
    split; [exact Hlog |].
    split; [| split; intros; discriminate].
    destruct (MethodM.value
                (ColorDisplayRemapType.RemapLUT_setter (PyArray a) self log));
      [tauto |].
    destruct Hvalue as [-> Hkept]. exact Hkept.
  - destruct (RemapLUT_setter_array_outcome a self log) as [Hlog Hvalue].
    split; [exact Hlog |].
    split; [| split].
    + destruct (MethodM.value
                  (ColorDisplayRemapType.RemapLUT_setter (PyArray a) self log));
        [tauto |].
      destruct Hvalue as [-> Hkept]. exact Hkept.
    + intros; discriminate.
    + intros a' Ha Hdtype. injection Ha as <-.
      rewrite RemapLUT_setter_array, Hdtype. reflexivity.
  - cbn. repeat split; intros; discriminate.
Qed.

(** X9: on an array of dtype uint8 or uint16 whose rank is not 2, the
    setter reads the second dimension: the array is stored when that
    dimension is 3 (an array of shape (2, 3, 4) is taken for a table),
    [ValueError] is raised when it is not 3, and [IndexError], not
    [ValueError], when the array has no second dimension. *)
Theorem X9_RemapLUT_setter_rank_other_than_two
    (a : numpy.ndarray) (self : ColorDisplayRemapType.t) (log : list Violation) :
  mem (numpy.dtype_name a) ["uint8"; "uint16"] = true ->
  numpy.ndim a <> 2%nat ->
  ColorDisplayRemapType.RemapLUT_setter (PyArray a) self log =
  match nth_error (numpy.shape a) 1 with
  | Some dim2 =>
      if (dim2 =? 3)%nat
      then (inr tt, {| ColorDisplayRemapType._remap_lut := Some a |}, log)
      else (inl ValueError, self, log)
  | None => (inl IndexError, self, log)
  end.
Proof.
  intros Hdtype Hrank.
  rewrite RemapLUT_setter_by_shape by assumption.
  unfold numpy.ndim in Hrank.
  destruct (numpy.shape a) as [|d1 [|d2 [|d3 rest]]]; cbn in *;
    try reflexivity.
  contradiction.
Qed.

Lemma X9_RemapLUT_setter_rank_witness :
  let cube := {| numpy.dtype_name := "uint8";
                 numpy.shape := [1; 3; 2]%nat;
                 numpy.data := [1; 2; 3; 4; 5; 6] |} in
  let row := {| numpy.dtype_name := "uint8";
                numpy.shape := [3]%nat;
                numpy.data := [1; 2; 3] |} in
  let empty := {| ColorDisplayRemapType._remap_lut := None |} in
  ColorDisplayRemapType.RemapLUT_setter (PyArray cube) empty [] =
    (inr tt, {| ColorDisplayRemapType._remap_lut := Some cube |}, [])
  /\ ColorDisplayRemapType.RemapLUT_setter (PyArray row) empty [] =
    (inl IndexError, empty, []).
Proof.
  intros cube row empty. split.
  - apply (X9_RemapLUT_setter_rank_other_than_two cube empty []);
      [reflexivity | discriminate].
  - apply (X9_RemapLUT_setter_rank_other_than_two row empty []);
      [reflexivity | discriminate].
Defined.

(** The table of a node after an assignment that returned. *)
Lemma RemapLUT_setter_keeps (value : PyValue)
    (self after : ColorDisplayRemapType.t) (log log' : list Violation) :
  ColorDisplayRemapType.RemapLUT_setter value self log = (inr tt, after, log') ->
  match ColorDisplayRemapType._remap_lut after with
  | None => True
  | Some a => color_lut_kept a
  end.
Proof.
  assert (Harray : forall a,
             ColorDisplayRemapType.RemapLUT_setter (PyArray a) self log =
             (inr tt, after, log') ->
             match ColorDisplayRemapType._remap_lut after with
             | None => True
             | Some a => color_lut_kept a
             end).
  { intros a Hset.
    destruct (RemapLUT_setter_array_outcome a self log) as [_ Hvalue].
    rewrite Hset in Hvalue. unfold MethodM.value, MethodM.object in Hvalue.
    cbn [fst snd] in Hvalue. destruct Hvalue as [-> Hkept]. exact Hkept. }
  destruct value as [|[e|a]|a|]; cbn; intros Hset;
    try discriminate Hset; try (now apply (Harray a)).
  injection Hset as <- _. exact I.
Qed.

(** X10: after an assignment to [RemapLUT] that returns, the property
    [size] and [len] return too, with the same number: the first dimension
    of the table, or 0 for a node without a table. *)
Theorem X10_size_and_len_after_assignment
    (value : PyValue) (self after : ColorDisplayRemapType.t)
    (log log' : list Violation) :
  ColorDisplayRemapType.RemapLUT_setter value self log = (inr tt, after, log') ->
  exists n : nat,
    ColorDisplayRemapType.size after = inr n
    /\ ColorDisplayRemapType.__len__ after = inr n
    /\ n = match ColorDisplayRemapType._remap_lut after with
           | None => O
           | Some lut => hd O (numpy.shape lut)
           end.
Proof.
  intros Hset.
  pose proof (RemapLUT_setter_keeps value self after log log' Hset) as Hkept.
  unfold ColorDisplayRemapType.size, ColorDisplayRemapType.__len__.
  destruct (ColorDisplayRemapType._remap_lut after) as [lut|].
  - destruct Hkept as [_ Hshape]. unfold numpy.shape_at.
    destruct (numpy.shape lut) as [|d1 [|d2 rest]]; try contradiction.
    exists d1. repeat split.
  - exists O. repeat split.
Qed.

Lemma X10_size_and_len_witness :
  let lut := {| numpy.dtype_name := "uint16";
                numpy.shape := [2; 3]%nat;
                numpy.data := [1; 2; 3; 400; 500; 600] |} in
  exists n : nat,
    ColorDisplayRemapType.size {| ColorDisplayRemapType._remap_lut := Some lut |}
      = inr n
    /\ ColorDisplayRemapType.__len__
         {| ColorDisplayRemapType._remap_lut := Some lut |} = inr n
    /\ n = 2%nat.
Proof.
  intros lut.
  apply (X10_size_and_len_after_assignment (PyArray lut)
           {| ColorDisplayRemapType._remap_lut := None |}
           {| ColorDisplayRemapType._remap_lut := Some lut |} [] []).
  reflexivity.
Defined.

(** ** [from_node] and [to_node] of [ColorDisplayRemapType] *)

(** X11: the round trip of a node without a table: [to_node] writes an
    element without a [RemapLUT] child, and [from_node] makes the node
    without a table of it again, logging nothing.  With a namespace
    dictionary that has no [default] prefix the lookup raises instead. *)
Theorem X11_round_trip_without_table
    {C : Type} (tag : string) (xml_ns : option (list (string * string)))
    (caller : C) (log : list Violation) :
  exists element : ElementTree.Element,
    ColorDisplayRemapType.to_node tag no_table = inr element
    /\ ElementTree.children element = []
    /\ ColorDisplayRemapType.from_node element xml_ns caller log =
       match xml_ns with
       | None => (inr no_table, caller, log)
       | Some ns =>
           match ElementTree.lookup "default" ns with
           | Some _ => (inr no_table, caller, log)
           | None => (inl SyntaxError, caller, log)
           end
       end.
Proof.
  eexists. split; [reflexivity |]. split; [reflexivity |].
  destruct xml_ns as [ns|]; [| reflexivity].
  unfold ColorDisplayRemapType.from_node, MethodM.bind, MethodM.lift,
    ElementTree.find_default.
  destruct (ElementTree.lookup "default" ns); reflexivity.
Qed.

(** [from_node] on an element with a [RemapLUT] child, step by step. *)
Lemma from_node_with_lut_node {C : Type} (node lut_node : ElementTree.Element)
    (xml_ns : option (list (string * string)))
    (caller : C) (log : list Violation) :
  find_RemapLUT xml_ns node = inr (Some lut_node) ->
  ColorDisplayRemapType.from_node node xml_ns caller log =
  match ElementTree.lookup "size" (ElementTree.attrib lut_node) with
  | None => (inl KeyError, caller, log)
  | Some size_attr =>
      match int_func size_attr with
      | inl e => (inl e, caller, log)
      | inr dim1 =>
          if (dim1 <? 0)%Z then (inl ValueError, caller, log)
          else
            match ElementTree.text lut_node with
            | None => (inl AttributeError, caller, log)
            | Some value =>
                match ColorDisplayRemapType.for_entries (PyStr.split value)
                        {| ColorDisplayRemapType.arr :=
                             {| numpy.dtype_name := "uint16";
                                numpy.shape := [Z.to_nat dim1; 3%nat];
                                numpy.data := repeat 0%Z (Z.to_nat dim1 * 3) |};
                           ColorDisplayRemapType.i := O |} log with
                | (inl e, _, log') => (inl e, caller, log')
                | (inr _, final, log') =>
                    match numpy.max (ColorDisplayRemapType.arr final) with
                    | inl e => (inl e, caller, log')
                    | inr top =>
                        ColorDisplayRemapType.__init__
                          (PyArray
                             (if (top <? 256)%Z
                              then numpy.cast_uint8
                                     (ColorDisplayRemapType.arr final)
                              else ColorDisplayRemapType.arr final))
                          caller log'
                    end
                end
            end
      end
  end.
Proof.
  intros Hfind.
  unfold ColorDisplayRemapType.from_node.
  change (match xml_ns with
          | Some ns => ElementTree.find_default "RemapLUT" ns node
          | None => ret (ElementTree.find_tag "RemapLUT" node)
          end) with (find_RemapLUT xml_ns node).
  rewrite Hfind.
  unfold MethodM.bind at 1. unfold MethodM.lift at 1.
  unfold MethodM.bind at 1. unfold MethodM.lift at 1.
  unfold ElementTree.getitem.
  destruct (ElementTree.lookup "size" (ElementTree.attrib lut_node))
    as [size_attr|]; [| reflexivity].
  cbn [ret].
  unfold MethodM.bind at 1. unfold MethodM.lift at 1.
  destruct (int_func size_attr) as [e|dim1]; [reflexivity |].
  unfold MethodM.bind at 1. unfold MethodM.lift at 1.
  unfold numpy.zeros2.
  destruct (dim1 <? 0)%Z; [reflexivity |].
  cbn [ret].
  unfold MethodM.bind at 1. unfold MethodM.lift at 1.
  unfold _get_node_value.
  destruct (ElementTree.text lut_node) as [value|]; [| reflexivity].
  cbn [ret].
  unfold MethodM.bind at 1. unfold MethodM.block.
  destruct (ColorDisplayRemapType.for_entries _ _ log) as [[[e|[]] final] log'];
    [reflexivity |].
  unfold MethodM.bind at 1. unfold MethodM.lift at 1.
  destruct (numpy.max (ColorDisplayRemapType.arr final)); reflexivity.
Qed.

(** X12: what [from_node] does with the [size] attribute of the [RemapLUT]
    child: without the attribute it raises [KeyError]; with one that is no
    integer literal, or that is negative, it raises [ValueError]; in each
    case before it looks at the text, so nothing is logged. *)
Theorem X12_from_node_size_attribute_errors
    {C : Type} (node lut_node : ElementTree.Element)
    (xml_ns : option (list (string * string)))
    (caller : C) (log : list Violation) :
  find_RemapLUT xml_ns node = inr (Some lut_node) ->
  let size_attr := ElementTree.lookup "size" (ElementTree.attrib lut_node) in
  let r := ColorDisplayRemapType.from_node node xml_ns caller log in
  (size_attr = None -> r = (inl KeyError, caller, log))
  /\ (forall text, size_attr = Some text ->
      is_error (int_func text) = true -> r = (inl ValueError, caller, log))
  /\ (forall text dim1, size_attr = Some text ->
      int_func text = inr dim1 -> (dim1 < 0)%Z ->
      r = (inl ValueError, caller, log)).
Proof.
  intros Hfind size_attr r. subst size_attr r.
  rewrite (from_node_with_lut_node node lut_node xml_ns caller log Hfind).
  split; [| split].
  - intros ->. reflexivity.
  - intros text -> Herr.
    destruct (int_func text) as [e|dim1] eqn:E; [| discriminate Herr].
    now rewrite (int_raises_ValueError text e E).
  - intros text dim1 -> -> Hneg.
    apply Z.ltb_lt in Hneg. now rewrite Hneg.
Qed.

Lemma X12_from_node_size_attribute_witness :
  let element (attrib : list (string * string)) :=
    ElementTree.mkElement "ColorDisplayRemap" [] None
      [ElementTree.mkElement "RemapLUT" attrib (Some "1,2,3") []] in
  ColorDisplayRemapType.from_node (element []) None tt [] =
    (inl KeyError, tt, [])
  /\ ColorDisplayRemapType.from_node (element [("size", "two")]) None tt [] =
    (inl ValueError, tt, [])
  /\ ColorDisplayRemapType.from_node (element [("size", "-1")]) None tt [] =
    (inl ValueError, tt, []).
Proof.
  intros element. split; [| split].
  - apply (proj1 (X12_from_node_size_attribute_errors
                    (element []) _ None tt [] eq_refl)).
    reflexivity.
  - apply (proj1 (proj2 (X12_from_node_size_attribute_errors
                           (element [("size", "two")]) _ None tt [] eq_refl))
             "two"); reflexivity.
  - apply (proj2 (proj2 (X12_from_node_size_attribute_errors
                           (element [("size", "-1")]) _ None tt [] eq_refl))
             "-1" (-1)%Z); reflexivity.
Defined.







(** The entries of [split] are not empty. *)
Lemma split_entries_not_empty (text entry : string) :
  In entry (PyStr.split text) -> (String.length entry =? 0)%nat = false.
Proof.
  unfold PyStr.split. intros Hin.
  apply filter_In in Hin as [_ Hne].
  apply negb_true_iff, String.eqb_neq in Hne.
  destruct entry; [contradiction | reflexivity].
Qed.




(** ** Integers and their decimal numerals *)












(** [split] undoes [join] on entries without whitespace. *)
Lemma split_join (entries : list string) :
  Forall plain_entry entries ->
  PyStr.split (PyStr.join " " entries) = entries.
Proof.
  induction 1 as [|e es [Hne Hsp] Hes IH]; [reflexivity |].
  destruct es as [|e' es'].
  - apply (split_first_entry e EmptyString Hne Hsp).
  - change (PyStr.join " " (e :: e' :: es'))
      with (e ++ " " ++ PyStr.join " " (e' :: es'))%string.
    destruct (split_first_entry e (PyStr.join " " (e' :: es')) Hne Hsp)
      as [_ ->].
    now rewrite IH.
Qed.

(** ** The table of [MonochromeDisplayRemapType] *)

Lemma RemapLUT_setter_monochrome_array (a : numpy.ndarray)
    (self : MonochromeDisplayRemapType.t) (log : list Violation) :
  MonochromeDisplayRemapType.RemapLUT_setter (PyArray a) self log =
  if (numpy.dtype_name a =? "uint8")%string && (numpy.ndim a =? 1)%nat
  then (inr tt, with_table (Some a) self, log)
  else (inl ValueError, self, log).
Proof.
  unfold MonochromeDisplayRemapType.RemapLUT_setter, MethodM.bind, MethodM.pure.
  cbv beta iota.
  destruct (numpy.dtype_name a =? "uint8")%string; [| reflexivity].
  destruct (numpy.ndim a =? 1)%nat; reflexivity.
Qed.

(** X15: an assignment to [RemapLUT] of a monochrome node logs nothing.
    When it raises, the node is as it was.  When it returns, the node holds
    no table (after the assignment of [None]) or an array of dtype uint8 and
    of rank 1, and its other two attributes are as before. *)
Theorem X15_monochrome_RemapLUT_assignment
    (value : PyValue) (self : MonochromeDisplayRemapType.t)
    (log : list Violation) :
  let r := MonochromeDisplayRemapType.RemapLUT_setter value self log in
  MethodM.logged r = log
  /\ match MethodM.value r with
     | inl _ => MethodM.object r = self
     | inr _ =>
         match MonochromeDisplayRemapType._remap_lut (MethodM.object r) with
         | None => value = PyNone
         | Some a =>
             numpy.dtype_name a = "uint8" /\ numpy.ndim a = 1%nat
             /\ (value = PyArray a \/ value = PySequence (inr a))
         end
         /\ MonochromeDisplayRemapType.RemapType (MethodM.object r) =
            MonochromeDisplayRemapType.RemapType self
         /\ MonochromeDisplayRemapType.RemapParameters (MethodM.object r) =
            MonochromeDisplayRemapType.RemapParameters self
     end.
Proof.
  intros r. subst r.
  assert (Harray : forall a,
             let r := MonochromeDisplayRemapType.RemapLUT_setter
                        (PyArray a) self log in
             MethodM.logged r = log
             /\ match MethodM.value r with
                | inl _ => MethodM.object r = self
                | inr _ =>
                    MethodM.object r = with_table (Some a) self
                    /\ numpy.dtype_name a = "uint8" /\ numpy.ndim a = 1%nat
                end).
  { intros a r. subst r. rewrite RemapLUT_setter_monochrome_array.
    destruct (numpy.dtype_name a =? "uint8")%string eqn:Hdtype;
      [| now split].
    destruct (numpy.ndim a =? 1)%nat eqn:Hrank; [| now split].
    apply String.eqb_eq in Hdtype. apply Nat.eqb_eq in Hrank.
    cbn. auto. }
  destruct value as [|[e|a]|a|].
  - cbn. auto.
  - cbn. auto.
  - change (MonochromeDisplayRemapType.RemapLUT_setter (PySequence (inr a)) self log)
      with (MonochromeDisplayRemapType.RemapLUT_setter (PyArray a) self log).
    destruct (Harray a) as [Hlog Hvalue]. split; [exact Hlog |].
    destruct (MethodM.value
                (MonochromeDisplayRemapType.RemapLUT_setter (PyArray a) self log));
      [exact Hvalue |].
    destruct Hvalue as (-> & Hdtype & Hrank). cbn. auto.
  - destruct (Harray a) as [Hlog Hvalue]. split; [exact Hlog |].
    destruct (MethodM.value
                (MonochromeDisplayRemapType.RemapLUT_setter (PyArray a) self log));
      [exact Hvalue |].
    destruct Hvalue as (-> & Hdtype & Hrank). cbn. auto.
  - cbn. auto.
Qed.

(** Storing at index [k] and then reading around it. *)
Lemma firstn_after_store (d : list Z) (k : nat) (v : Z) :
  (k < List.length d)%nat ->
  firstn (k + 1) (firstn k d ++ [v] ++ skipn (k + 1) d) = firstn k d ++ [v].
Proof.
  intros Hk.
  assert (Hlen : List.length (firstn k d) = k)
    by (rewrite length_firstn; lia).
  rewrite firstn_app, Hlen.
  rewrite firstn_all2 by lia.
  replace (k + 1 - k)%nat with 1%nat by lia.
  reflexivity.
Qed.

Lemma skipn_after_store (d : list Z) (k m : nat) (v : Z) :
  (k < List.length d)%nat ->
  skipn (k + 1 + m) (firstn k d ++ [v] ++ skipn (k + 1) d) = skipn (k + 1 + m) d.
Proof.
  intros Hk.
  assert (Hlen : List.length (firstn k d) = k)
    by (rewrite length_firstn; lia).
  rewrite skipn_app, Hlen.
  rewrite (skipn_all2 (firstn k d)) by lia.
  replace (k + 1 + m - k)%nat with (S m) by lia.
  cbn [app skipn]. rewrite skipn_skipn. f_equal. lia.
Qed.

Lemma length_after_store (d : list Z) (k : nat) (v : Z) :
  (k < List.length d)%nat ->
  List.length (firstn k d ++ [v] ++ skipn (k + 1) d) = List.length d.
Proof.
  intros Hk. rewrite !length_app, length_firstn, length_skipn. cbn. lia.
Qed.

(** One turn of the loop of [from_node] on an entry that is an integer
    literal, at an index in range. *)
Lemma monochrome_for_entries_step (entry : string) (rest : list string)
    (v : Z) (a : numpy.ndarray) (k dim1 : nat) (log : list Violation) :
  (String.length entry =? 0)%nat = false ->
  PyStr.int entry = inr v ->
  numpy.shape a = [dim1] ->
  (k < dim1)%nat ->
  MonochromeDisplayRemapType.for_entries (entry :: rest)
    {| MonochromeDisplayRemapType.arr := a; MonochromeDisplayRemapType.i := k |}
    log =
  MonochromeDisplayRemapType.for_entries rest
    {| MonochromeDisplayRemapType.arr :=
         {| numpy.dtype_name := numpy.dtype_name a;
            numpy.shape := numpy.shape a;
            numpy.data := firstn k (numpy.data a) ++ [numpy.to_uint8 v]
                          ++ skipn (k + 1) (numpy.data a) |};
       MonochromeDisplayRemapType.i := (k + 1)%nat |} log.
Proof.
  intros Hne Hint Hshape Hk.
  cbn [MonochromeDisplayRemapType.for_entries]. rewrite Hne, Hint.
  unfold MethodM.bind at 1. unfold MethodM.lift at 1.
  unfold MethodM.bind at 1. unfold MethodM.getattr at 1.
  unfold MethodM.bind at 1. unfold MethodM.getattr at 1.
  cbn [MonochromeDisplayRemapType.arr MonochromeDisplayRemapType.i].
  unfold numpy.set_item. rewrite Hshape.
  replace (dim1 <=? k)%nat with false by (symmetry; apply Nat.leb_gt; lia).
  unfold MethodM.bind at 1. unfold MethodM.lift at 1. cbn [ret].
  unfold MethodM.bind at 1. unfold MethodM.setattr at 1.
  unfold MethodM.bind at 1. unfold MethodM.setattr at 1.
  unfold MonochromeDisplayRemapType.set_arr, MonochromeDisplayRemapType.set_i.
  cbn [MonochromeDisplayRemapType.arr MonochromeDisplayRemapType.i].
  now rewrite <- Hshape.
Qed.

(** The loop of [from_node] over entries that are integer literals of
    unsigned bytes, as long as the index stays in range: the values are
    stored one after the other from the index on. *)
Lemma monochrome_for_entries_app (dim1 : nat) (good : list string) :
  forall (more : list string) (values : list Z) (a : numpy.ndarray) (k : nat)
         (log : list Violation),
    (forall entry, In entry good -> (String.length entry =? 0)%nat = false) ->
    mapM PyStr.int good = inr values ->
    uint8_values values ->
    numpy.shape a = [dim1] ->
    List.length (numpy.data a) = dim1 ->
    (k + List.length values <= dim1)%nat ->
    MonochromeDisplayRemapType.for_entries (good ++ more)
      {| MonochromeDisplayRemapType.arr := a;
         MonochromeDisplayRemapType.i := k |} log =
    MonochromeDisplayRemapType.for_entries more
      {| MonochromeDisplayRemapType.arr :=
           {| numpy.dtype_name := numpy.dtype_name a;
              numpy.shape := numpy.shape a;
              numpy.data := firstn k (numpy.data a) ++ values
                            ++ skipn (k + List.length values) (numpy.data a) |};
         MonochromeDisplayRemapType.i := (k + List.length values)%nat |} log.
Proof.
  induction good as [|entry rest IH];
    intros more values a k log Hne Hints Hbytes Hshape Hlen Hk.
  - injection Hints as <-. cbn [app List.length].
    rewrite Nat.add_0_r, firstn_skipn. now destruct a.
  - cbn [mapM] in Hints.
    destruct (PyStr.int entry) as [e|v] eqn:Hint; [discriminate |].
    destruct (mapM PyStr.int rest) as [e|vs] eqn:Hrest; [discriminate |].
    injection Hints as <-.
    apply Forall_cons_iff in Hbytes as [Hv Hvs].
    cbn [List.length] in *.
    change ((entry :: rest) ++ more) with (entry :: (rest ++ more)).
    rewrite (monochrome_for_entries_step entry (rest ++ more) v a k dim1 log
               (Hne entry (or_introl eq_refl)) Hint Hshape ltac:(lia)).
    unfold numpy.to_uint8. rewrite (Z.mod_small v 256 Hv).
    rewrite (IH more vs _ (k + 1)%nat log);
      [| intros e He; apply Hne; now right | reflexivity | exact Hvs
       | exact Hshape | cbn [numpy.data]; rewrite length_after_store; lia
       | lia].
    cbn [numpy.dtype_name numpy.shape numpy.data].
    rewrite firstn_after_store by lia.
    rewrite skipn_after_store by lia.
    rewrite <- !app_assoc. cbn [app].
    replace (k + 1 + List.length vs)%nat with (k + S (List.length vs))%nat by lia.
    reflexivity.
Qed.


(** [from_node] of the monochrome node on an element with a [RemapLUT]
    child, up to the loop. *)
Lemma from_node_RemapLUT_with_lut_node {C : Type}
    (node lut_node : ElementTree.Element)
    (xml_ns : option (list (string * string)))
    (caller : C) (log : list Violation) :
  find_RemapLUT xml_ns node = inr (Some lut_node) ->
  MonochromeDisplayRemapType.from_node_RemapLUT node xml_ns caller log =
  match ElementTree.lookup "size" (ElementTree.attrib lut_node) with
  | None => (inl KeyError, caller, log)
  | Some size_attr =>
      match int_func size_attr with
      | inl e => (inl e, caller, log)
      | inr dim1 =>
          if (dim1 <? 0)%Z then (inl ValueError, caller, log)
          else
            match ElementTree.text lut_node with
            | None => (inl AttributeError, caller, log)
            | Some value =>
                match MonochromeDisplayRemapType.for_entries (PyStr.split value)
                        {| MonochromeDisplayRemapType.arr :=
                             {| numpy.dtype_name := "uint8";
                                numpy.shape := [Z.to_nat dim1];
                                numpy.data := repeat 0%Z (Z.to_nat dim1) |};
                           MonochromeDisplayRemapType.i := O |} log with
                | (inl e, _, log') => (inl e, caller, log')
                | (inr _, final, log') =>
                    (inr (Some (MonochromeDisplayRemapType.arr final)),
                     caller, log')
                end
            end
      end
  end.
Proof.
  intros Hfind.
  unfold MonochromeDisplayRemapType.from_node_RemapLUT.
  change (match xml_ns with
          | Some ns => ElementTree.find_default "RemapLUT" ns node
          | None => ret (ElementTree.find_tag "RemapLUT" node)
          end) with (find_RemapLUT xml_ns node).
  rewrite Hfind.
  unfold MethodM.bind at 1. unfold MethodM.lift at 1.
  unfold MethodM.bind at 1. unfold MethodM.lift at 1.
  unfold ElementTree.getitem.
  destruct (ElementTree.lookup "size" (ElementTree.attrib lut_node))
    as [size_attr|]; [| reflexivity].
  cbn [ret].
  unfold MethodM.bind at 1. unfold MethodM.lift at 1.
  destruct (int_func size_attr) as [e|dim1]; [reflexivity |].
  unfold MethodM.bind at 1. unfold MethodM.lift at 1.
  unfold numpy.zeros1.
  destruct (dim1 <? 0)%Z; [reflexivity |].
  cbn [ret].
  unfold MethodM.bind at 1. unfold MethodM.lift at 1.
  unfold _get_node_value.
  destruct (ElementTree.text lut_node) as [value|]; [| reflexivity].
  cbn [ret].
  unfold MethodM.bind at 1. unfold MethodM.block.
  destruct (MonochromeDisplayRemapType.for_entries _ _ log)
    as [[[e|[]] final] log']; reflexivity.
Qed.





(** X17: an entry of the text that is no integer literal is not skipped by
    the monochrome [from_node]: it raises [ValueError], when the entries
    before it are integer literals of unsigned bytes and no more than the
    [size] attribute says. *)
Theorem X17_monochrome_from_node_raises_on_bad_entry
    {C : Type} (node lut_node : ElementTree.Element)
    (xml_ns : option (list (string * string)))
    (size_attr value : string) (dim1 : nat)
    (good : list string) (bad : string) (rest : list string)
    (values : list Z) (caller : C) (log : list Violation) :
  find_RemapLUT xml_ns node = inr (Some lut_node) ->
  ElementTree.lookup "size" (ElementTree.attrib lut_node) = Some size_attr ->
  int_func size_attr = inr (Z.of_nat dim1) ->
  ElementTree.text lut_node = Some value ->
  PyStr.split value = good ++ bad :: rest ->
  mapM PyStr.int good = inr values ->
  uint8_values values ->
  (List.length values <= dim1)%nat ->
  is_error (PyStr.int bad) = true ->
  MonochromeDisplayRemapType.from_node_RemapLUT node xml_ns caller log =
  (inl ValueError, caller, log).
Proof.
  intros Hfind Hsize Hint Htext Hsplit Hints Hbytes Hlen Hbad.
  assert (Hne : forall entry, In entry (good ++ bad :: rest) ->
                              (String.length entry =? 0)%nat = false).
  { intros entry Hin. apply (split_entries_not_empty value).
    now rewrite Hsplit. }
  rewrite (from_node_RemapLUT_with_lut_node node lut_node xml_ns caller log Hfind).
  rewrite Hsize, Hint, Htext, Hsplit.
  replace (Z.of_nat dim1 <? 0)%Z with false by (symmetry; apply Z.ltb_ge; lia).
  rewrite Nat2Z.id.
  rewrite (monochrome_for_entries_app dim1 good (bad :: rest) values _ O log);
    [| intros entry Hin; apply Hne, in_or_app; now left | exact Hints
     | exact Hbytes | reflexivity | apply repeat_length | exact Hlen].
  cbn [MonochromeDisplayRemapType.for_entries].
  rewrite (Hne bad) by (apply in_or_app; right; now left).
  destruct (PyStr.int bad) as [e|v] eqn:Hparse; [| discriminate Hbad].
  rewrite (int_raises_ValueError bad e Hparse).
  reflexivity.
Qed.

Lemma X17_monochrome_from_node_raises_witness :
  MonochromeDisplayRemapType.from_node_RemapLUT
    (ElementTree.mkElement "MonochromeDisplayRemap" [] None
       [ElementTree.mkElement "RemapLUT" [("size", "3")] (Some "7 1,2 9") []])
    None tt [] =
  (inl ValueError, tt, []).
Proof.
  apply (X17_monochrome_from_node_raises_on_bad_entry
           (ElementTree.mkElement "MonochromeDisplayRemap" [] None
              [ElementTree.mkElement "RemapLUT" [("size", "3")]
                 (Some "7 1,2 9") []])
           (ElementTree.mkElement "RemapLUT" [("size", "3")] (Some "7 1,2 9") [])
           None "3" "7 1,2 9" 3 ["7"] "1,2" ["9"] [7] tt []);
    try reflexivity.
  - repeat constructor; lia.
  - cbn. lia.
Defined.




(** ** [to_node] of [ColorDisplayRemapType] on tables that are not N x 3 *)

Lemma format_entry_short_row (row : list Z) :
  (List.length row < 3)%nat ->
  ColorDisplayRemapType.format_entry row = inl IndexError.
Proof.
  destruct row as [|r [|g [|b more]]]; cbn [List.length]; intros Hlen;
    try reflexivity.
  lia.
Qed.

(** X19: a table of rank 2 with a row at least and fewer than three columns
    is stored by the setter, and [to_node] then raises [IndexError] on the
    node: the format call has no third number to write. *)
Theorem X19_to_node_raises_on_narrow_table
    (lut : numpy.ndarray) (nrows ncols : nat) (tag : string)
    (self : ColorDisplayRemapType.t) (log : list Violation) :
  mem (numpy.dtype_name lut) ["uint8"; "uint16"] = true ->
  numpy.shape lut = [S nrows; ncols] ->
  (ncols < 3)%nat ->
  ColorDisplayRemapType.RemapLUT_setter (PyArray lut) self log =
    (inr tt, {| ColorDisplayRemapType._remap_lut := Some lut |}, log)
  /\ ColorDisplayRemapType.to_node tag
       {| ColorDisplayRemapType._remap_lut := Some lut |} = inl IndexError.
Proof.
  intros Hdtype Hshape Hcols. split.
  - rewrite RemapLUT_setter_array, Hdtype, Hshape. reflexivity.
  - unfold ColorDisplayRemapType.to_node.
    cbn [ColorDisplayRemapType._remap_lut].
    unfold numpy.iter_rows. rewrite Hshape.
    cbn [bind ret numpy.rows mapM].
    rewrite format_entry_short_row; [reflexivity |].
    rewrite length_firstn. lia.
Qed.

Lemma X19_to_node_raises_on_narrow_table_witness :
  let lut := {| numpy.dtype_name := "uint8";
                numpy.shape := [2; 2]%nat;
                numpy.data := [1; 2; 3; 4] |} in
  let empty := {| ColorDisplayRemapType._remap_lut := None |} in
  ColorDisplayRemapType.RemapLUT_setter (PyArray lut) empty [] =
    (inr tt, {| ColorDisplayRemapType._remap_lut := Some lut |}, [])
  /\ ColorDisplayRemapType.to_node "ColorDisplayRemap"
       {| ColorDisplayRemapType._remap_lut := Some lut |} = inl IndexError.
Proof.
  intros lut empty.
  apply (X19_to_node_raises_on_narrow_table lut 1 2 "ColorDisplayRemap" empty []);
    [reflexivity | reflexivity | lia].
Defined.

(** The rows of a table with three columns at least are all formatted, each
    as an entry of three tokens without whitespace. *)
Lemma mapM_format_entry_wide_rows (ncols nrows : nat) :
  (3 <= ncols)%nat ->
  forall entries : list Z,
    List.length entries = (nrows * ncols)%nat ->
    exists formatted : list string,
      mapM ColorDisplayRemapType.format_entry (numpy.rows nrows ncols entries) =
      inr formatted
      /\ List.length formatted = nrows
      /\ Forall plain_entry formatted
      /\ Forall (fun entry =>
                   List.length (PyStr.split_char "," entry) = 3%nat) formatted.
Proof.
  intros Hcols. induction nrows as [|n IH]; intros entries Hlen.
  - exists []. cbn. repeat split; constructor.
  - cbn [numpy.rows mapM].
    assert (Hrow : List.length (firstn ncols entries) = ncols)
      by (rewrite length_firstn; cbn [Nat.mul] in Hlen; lia).
    destruct (firstn ncols entries) as [|r [|g [|b more]]] eqn:Erow;
      cbn [List.length] in Hrow; try lia.
    destruct (format_entry_row r g b more) as (entry & -> & Hne & Hsp & Htok).
    destruct (IH (skipn ncols entries)) as (rest & -> & Hn & Hplain & Htoks).
    { rewrite length_skipn, Hlen. cbn [Nat.mul]. lia. }
    exists (entry :: rest). repeat split.
    + cbn [List.length]. now rewrite Hn.
    + constructor; [now split | exact Hplain].
    + constructor; assumption.
Qed.

(** X20: on a table of rank 2 with three columns at least, [to_node]
    returns: the [size] attribute of the [RemapLUT] child is the number of
    rows, and the text splits at whitespace into one entry per row, each of
    three comma-separated tokens; the columns after the third are not
    written. *)
Theorem X20_to_node_writes_one_entry_per_row
    (lut : numpy.ndarray) (nrows ncols : nat) (tag : string) :
  numpy.shape lut = [nrows; ncols] ->
  (3 <= ncols)%nat ->
  List.length (numpy.data lut) = (nrows * ncols)%nat ->
  exists formatted : list string,
    mapM ColorDisplayRemapType.format_entry
      (numpy.rows nrows ncols (numpy.data lut)) = inr formatted
    /\ ColorDisplayRemapType.to_node tag
         {| ColorDisplayRemapType._remap_lut := Some lut |} =
       inr (lut_element tag (PyStr.format_d (Z.of_nat nrows))
              (PyStr.join " " formatted))
    /\ PyStr.split (PyStr.join " " formatted) = formatted
    /\ List.length formatted = nrows
    /\ Forall (fun entry => List.length (PyStr.split_char "," entry) = 3%nat)
         formatted.
Proof.
  intros Hshape Hcols Hlen.
  destruct (mapM_format_entry_wide_rows ncols nrows Hcols (numpy.data lut) Hlen)
    as (formatted & Hformat & Hn & Hplain & Htoks).
  exists formatted. split; [exact Hformat |]. split; [| split; [| split]].
  - assert (Hiter : numpy.iter_rows lut =
                    inr (numpy.rows nrows ncols (numpy.data lut))).
    { unfold numpy.iter_rows. rewrite Hshape. now destruct nrows. }
    unfold ColorDisplayRemapType.to_node, ColorDisplayRemapType.size.
    cbn [ColorDisplayRemapType._remap_lut].
    rewrite Hiter. unfold numpy.shape_at. rewrite Hshape.
    cbn [bind ret nth_error]. rewrite Hformat. reflexivity.
  - now apply split_join.
  - exact Hn.
  - exact Htoks.
Qed.

Lemma X20_to_node_writes_one_entry_per_row_witness :
  let lut := {| numpy.dtype_name := "uint16";
                numpy.shape := [2; 4]%nat;
                numpy.data := [1; 2; 3; 4; 500; 600; 700; 800] |} in
  exists formatted : list string,
    mapM ColorDisplayRemapType.format_entry
      (numpy.rows 2 4 (numpy.data lut)) = inr formatted
    /\ ColorDisplayRemapType.to_node "ColorDisplayRemap"
         {| ColorDisplayRemapType._remap_lut := Some lut |} =
       inr (lut_element "ColorDisplayRemap" (PyStr.format_d (Z.of_nat 2))
              (PyStr.join " " formatted))
    /\ PyStr.split (PyStr.join " " formatted) = formatted
    /\ List.length formatted = 2%nat
    /\ Forall (fun entry => List.length (PyStr.split_char "," entry) = 3%nat)
         formatted.
Proof.
  intros lut.
  apply (X20_to_node_writes_one_entry_per_row lut 2 4 "ColorDisplayRemap");
    [reflexivity | lia | reflexivity].
Defined.
